(** * STR: the UDP latency listener ([udp.py])

    A shallow embedding of the listener's helpers ([parse_send_ms],
    [task_key], [percentile_hwm], [format_hwms]), of its aggregation store
    ([delays_by_task]), of the report printer ([print_summary]) and of one
    turn of its receive loop, followed by the properties the design
    document states about them.

    Python values are modelled as the interpreter has them: [int] is [Z],
    [float] is an IEEE-754 binary64 value ([spec_float] at precision 53),
    [str] is a sequence of code points, exceptions are an error monad. *)

From Stdlib Require Import ZArith List Lia Bool.
From Stdlib Require String Ascii.
From Stdlib Require Import Strings.Byte.
From Stdlib Require Import Floats.SpecFloat.
From Stdlib Require Import Sorting.Mergesort Sorting.Sorted Sorting.Permutation.
From Stdlib Require Import Orders.
From Stdlib Require DecimalString.
Import ListNotations.
Open Scope Z_scope.

(* ================================================================== *)
(** * Python runtime values *)

(** ** [str]: a sequence of Unicode code points *)

Inductive str : Set := Str (cps : list N).

Definition str_parse (bs : list Byte.byte) : option str :=
  if forallb (fun b => N.ltb (Byte.to_N b) 128) bs
  then Some (Str (map Byte.to_N bs)) else None.

Definition str_print (s : str) : option (list Byte.byte) :=
  let '(Str l) := s in
  if forallb (fun c => N.ltb c 128) l
  then Some (map (fun c => match Byte.of_N c with Some b => b | None => x00 end) l)
  else None.

Declare Scope str_scope.
Delimit Scope str_scope with str.
Bind Scope str_scope with str.
String Notation str str_parse str_print : str_scope.

Module PyStr.

Definition cps (s : str) : list N := let '(Str l) := s in l.

Definition eqb (a b : str) : bool :=
  if list_eq_dec N.eq_dec (cps a) (cps b) then true else false.

Definition len (s : str) : Z := Z.of_nat (length (cps s)).

(** [a + b] *)
Definition concat (a b : str) : str := Str (cps a ++ cps b).

(** [bool(s)]: a string is truthy unless it is empty. *)
Definition truthy (s : str) : bool :=
  match cps s with [] => false | _ => true end.

(** The code points [str.isspace] accepts, which are the ones
    [str.strip()] removes. *)
Definition isspace (c : N) : bool :=
  ((9 <=? c) && (c <=? 13) || (28 <=? c) && (c <=? 32)
   || (c =? 133) || (c =? 160) || (c =? 5760)
   || (8192 <=? c) && (c <=? 8202)
   || (c =? 8232) || (c =? 8233) || (c =? 8239) || (c =? 8287)
   || (c =? 12288))%N.

Fixpoint lstrip_cps (l : list N) : list N :=
  match l with
  | c :: r => if isspace c then lstrip_cps r else l
  | [] => []
  end.

(** [s.strip()] *)
Definition strip (s : str) : str :=
  Str (rev (lstrip_cps (rev (lstrip_cps (cps s))))).

(** [s.endswith(t)] *)
Definition endswith (s t : str) : bool :=
  let ls := cps s in
  let lt := cps t in
  (length lt <=? length ls)%nat &&
  (if list_eq_dec N.eq_dec (skipn (length ls - length lt) ls) lt
   then true else false).

(** [s[:-1]] *)
Definition drop_last (s : str) : str := Str (removelast (cps s)).

Definition of_string (s : String.string) : str :=
  Str (map Ascii.N_of_ascii (String.list_ascii_of_string s)).

(** [str(z)] for an [int]: its decimal digits, with a leading [-] when
    negative. *)
Definition of_int (z : Z) : str :=
  of_string (DecimalString.NilZero.string_of_int (Z.to_int z)).

(** Lexicographic comparison by code point, the order of [<] on [str]. *)
Fixpoint cps_leb (a b : list N) : bool :=
  match a, b with
  | [], _ => true
  | _ :: _, [] => false
  | x :: a', y :: b' =>
      if (x <? y)%N then true
      else if (y <? x)%N then false
      else cps_leb a' b'
  end.

Definition leb (a b : str) : bool := cps_leb (cps a) (cps b).

End PyStr.

Infix "+s" := PyStr.concat (at level 50, left associativity).

(** ** Exceptions and the error monad *)

Inductive exn : Set :=
| AttributeError
| TypeError
| ValueError
| JSONDecodeError        (* json.JSONDecodeError, a subclass of ValueError *)
| OverflowError
| IndexError
| KeyError
| ZeroDivisionError
| RecursionError.

(** [isinstance(e, ValueError)], as an [except ValueError] clause tests it. *)
Definition is_ValueError (e : exn) : bool :=
  match e with
  | ValueError | JSONDecodeError => true
  | _ => false
  end.

(** [isinstance(e, json.JSONDecodeError)] *)
Definition is_JSONDecodeError (e : exn) : bool :=
  match e with
  | JSONDecodeError => true
  | _ => false
  end.

Inductive Py (A : Type) : Type :=
| Return (a : A)
| Raise (e : exn).
Arguments Return {A} a.
Arguments Raise {A} e.

Definition bind {A B : Type} (m : Py A) (k : A -> Py B) : Py B :=
  match m with
  | Return a => k a
  | Raise e => Raise e
  end.

(** [try: m  except <class>: h] where [caught] decides the class. *)
Definition try_except {A : Type} (m : Py A) (caught : exn -> bool) (h : Py A) : Py A :=
  match m with
  | Return a => Return a
  | Raise e => if caught e then h else Raise e
  end.

Declare Scope py_scope.
Delimit Scope py_scope with py.
Notation "x <- m ;; k" := (bind m (fun x => k))
  (at level 61, m at next level, right associativity) : py_scope.
Open Scope py_scope.

(** ** [float]: IEEE-754 binary64 *)

Definition float : Set := spec_float.

Module PyFloat.

Definition prec : Z := 53.
Definition emax : Z := 1024.

(** [float("nan")] *)
Definition nan : float := S754_nan.

(** The exact value of an [int], before any rounding. *)
Definition exact (z : Z) : float :=
  match z with
  | Z0 => S754_zero false
  | Zpos p => S754_finite false p 0
  | Zneg p => S754_finite true p 0
  end.

(** An operation whose rounded result leaves the binary64 range raises
    instead of returning an infinity. *)
Definition checked (f : float) : Py float :=
  match f with
  | S754_infinity _ => Raise OverflowError
  | _ => Return f
  end.

(** [float(z)]: the nearest binary64 (ties to even); [OverflowError] when
    the integer is too large. *)
Definition of_int (z : Z) : Py float :=
  checked (binary_normalize prec emax z 0 false).

(** [x * y] on floats *)
Definition mul (x y : float) : float := SFmul prec emax x y.

(** [x * z] for a float [x] and an int [z]: the int is converted first. *)
Definition mul_int (x : float) (z : Z) : Py float :=
  fz <- of_int z ;;
  Return (mul x fz).

(** [a / b] on ints: the correctly rounded quotient. *)
Definition int_true_divide (a b : Z) : Py float :=
  if b =? 0 then Raise ZeroDivisionError
  else checked (SFdiv prec emax (exact a) (exact b)).

(** A decimal literal [digits / 10^places], as the parser reads
    [0.99] ([literal 99 2]): the nearest binary64. *)
Definition literal (digits : Z) (places : Z) : float :=
  SFdiv prec emax (exact digits) (exact (10 ^ places)).

(** [int(x)]: truncation toward zero. *)
Definition to_int (x : float) : Py Z :=
  match x with
  | S754_nan => Raise ValueError
  | S754_infinity _ => Raise OverflowError
  | S754_zero _ => Return 0
  | S754_finite s m e => Return (cond_Zopp s (Z.shiftl (Zpos m) e))
  end.

(** [math.ceil(x)] *)
Definition ceil (x : float) : Py Z :=
  match x with
  | S754_nan => Raise ValueError
  | S754_infinity _ => Raise OverflowError
  | S754_zero _ => Return 0
  | S754_finite s m e => Return (- Z.shiftl (cond_Zopp (negb s) (Zpos m)) e)
  end.

(** [bool(x)] *)
Definition truthy (x : float) : bool :=
  match x with
  | S754_zero _ => false
  | _ => true
  end.

(** [x == z] for a float and an int: compared exactly. *)
Definition eq_int (x : float) (z : Z) : bool :=
  match x with
  | S754_zero _ => z =? 0
  | S754_finite s m e =>
      if 0 <=? e then cond_Zopp s (Zpos m * 2 ^ e) =? z
      else cond_Zopp s (Zpos m) =? z * 2 ^ (- e)
  | _ => false
  end.

(** [x == y] on floats *)
Definition eqb (x y : float) : bool := SFeqb x y.

(** Rounding [num / den] to the nearest integer, ties to even
    ([0 <= num], [0 < den]). *)
Definition round_half_even (num den : Z) : Z :=
  let q := num / den in
  match (2 * (num mod den)) ?= den with
  | Lt => q
  | Eq => if Z.even q then q else q + 1
  | Gt => q + 1
  end.

(** The digits of [n >= 0] with a point before the last [d] of them. *)
Definition fixed_digits (d : nat) (n : Z) : str :=
  let p := 10 ^ Z.of_nat d in
  match d with
  | O => PyStr.of_int n
  | S _ =>
      PyStr.of_int (n / p) +s "." +s
      Str (tl (PyStr.cps (PyStr.of_int (p + n mod p))))
  end.

(** [format(x, ".<d>f")]: the exact value rounded to [d] decimals, ties
    to even. *)
Definition format_f (d : nat) (x : float) : str :=
  match x with
  | S754_nan => "nan"
  | S754_infinity s => if s then "-inf" else "inf"
  | S754_zero s => (if s then "-" else "") +s fixed_digits d 0
  | S754_finite s m e =>
      let n := round_half_even (Zpos m * 10 ^ Z.of_nat d * 2 ^ Z.max e 0)
                               (2 ^ Z.max (- e) 0) in
      (if s then "-" else "") +s fixed_digits d n
  end.

End PyFloat.

(** ** Decoded JSON values *)

(** What [json.loads] can return: [None], [bool], [int], [float] (the
    decoder accepts [NaN] and [Infinity]), [str], [list] and [dict] with
    string keys. *)
#[local] Set Warnings "-register-all".
Inductive PyVal : Type :=
| VNone
| VBool (b : bool)
| VInt (z : Z)
| VFloat (f : float)
| VStr (s : str)
| VList (l : list PyVal)
| VDict (d : list (str * PyVal)).

(** [bool(v)] *)
Definition truthy (v : PyVal) : bool :=
  match v with
  | VNone => false
  | VBool b => b
  | VInt z => negb (z =? 0)
  | VFloat f => PyFloat.truthy f
  | VStr s => PyStr.truthy s
  | VList l => match l with [] => false | _ => true end
  | VDict d => match d with [] => false | _ => true end
  end.

(** [a or b] *)
Definition py_or (a b : PyVal) : PyVal := if truthy a then a else b.

(** The entries of a dict, looked up by key. *)
Fixpoint dict_lookup (d : list (str * PyVal)) (k : str) : option PyVal :=
  match d with
  | [] => None
  | (k', v) :: r => if PyStr.eqb k' k then Some v else dict_lookup r k
  end.

(** [obj.get(k)]: only a dict has the method; a missing key gives [None]. *)
Definition py_get (obj : PyVal) (k : str) : Py PyVal :=
  match obj with
  | VDict d => Return (match dict_lookup d k with Some v => v | None => VNone end)
  | _ => Raise AttributeError
  end.

(** [isinstance(v, (int, float))]; [bool] is a subclass of [int]. *)
Definition isinstance_int_float (v : PyVal) : bool :=
  match v with
  | VBool _ | VInt _ | VFloat _ => true
  | _ => false
  end.

(** [isinstance(v, str)] *)
Definition isinstance_str (v : PyVal) : bool :=
  match v with
  | VStr _ => true
  | _ => false
  end.

(** [int(v)] for a value that passed [isinstance(v, (int, float))]. *)
Definition py_int (v : PyVal) : Py Z :=
  match v with
  | VBool b => Return (if b then 1 else 0)
  | VInt z => Return z
  | VFloat f => PyFloat.to_int f
  | _ => Raise TypeError
  end.

(** [obj[k]] *)
Definition py_getitem (obj : PyVal) (k : str) : Py PyVal :=
  match obj with
  | VDict d => match dict_lookup d k with Some v => Return v | None => Raise KeyError end
  | _ => Raise TypeError
  end.

(** [v.strip()] *)
Definition py_strip (v : PyVal) : Py str :=
  match v with
  | VStr s => Return (PyStr.strip s)
  | _ => Raise AttributeError
  end.

(** ** Lists of ints *)

(** [len(l)] *)
Definition len {A : Type} (l : list A) : Z := Z.of_nat (length l).

(** [l[k]]: a negative index counts from the end; outside the list,
    [IndexError]. *)
Definition list_getitem (l : list Z) (k : Z) : Py Z :=
  let i := if k <? 0 then k + len l else k in
  if (0 <=? i) && (i <? len l) then Return (nth (Z.to_nat i) l 0)
  else Raise IndexError.

(** [max(l)]: [ValueError] on an empty list. *)
Definition py_max (l : list Z) : Py Z :=
  match l with
  | [] => Raise ValueError
  | x :: r => Return (fold_left Z.max r x)
  end.

(** [sum(l)] *)
Definition py_sum (l : list Z) : Z := fold_left Z.add l 0.

Module ZOrder <: TotalLeBool.
Definition t := Z.
Definition leb := Z.leb.
Theorem leb_total : forall a1 a2, leb a1 a2 = true \/ leb a2 a1 = true.
Proof. intros a1 a2. unfold leb. rewrite !Z.leb_le. lia. Qed.
End ZOrder.

Module ZSort := Sort ZOrder.

(** [sorted(l)]: a new list, ascending; the argument is left as it is. *)
Definition sorted (l : list Z) : list Z := ZSort.sort l.

(** ** [datetime] *)

(** An offset from UTC, in microseconds. *)
Definition tz : Set := Z.

Record datetime : Set := mk_datetime {
  year : Z; month : Z; day : Z;
  hour : Z; minute : Z; second : Z; microsecond : Z;
  tzinfo : option tz
}.

Module PyDatetime.

(** [datetime.timezone.utc] *)
Definition utc : tz := 0.

(** [dt.replace(tzinfo=z)] *)
Definition replace_tzinfo (dt : datetime) (z : option tz) : datetime :=
  mk_datetime (year dt) (month dt) (day dt)
              (hour dt) (minute dt) (second dt) (microsecond dt) z.

Definition is_leap (y : Z) : bool :=
  (y mod 4 =? 0) && (negb (y mod 100 =? 0) || (y mod 400 =? 0)).

(** Days before January 1st of year [y], in the proleptic Gregorian
    calendar. *)
Definition days_before_year (y : Z) : Z :=
  let p := y - 1 in p * 365 + p / 4 - p / 100 + p / 400.

(** Days in the year before the first day of month [m]. *)
Definition days_before_month (y m : Z) : Z :=
  nth (Z.to_nat m) [0; 0; 31; 59; 90; 120; 151; 181; 212; 243; 273; 304; 334] 0
  + (if (2 <? m) && is_leap y then 1 else 0).

(** [date(y, m, d).toordinal()]: January 1st of year 1 is day 1. *)
Definition ymd2ord (y m d : Z) : Z :=
  days_before_year y + days_before_month y m + d.

(** The microseconds from 1970-01-01T00:00:00+00:00 to the instant of
    an aware [dt]: the [timedelta] of [dt - epoch]. *)
Definition micros_since_epoch (dt : datetime) (off : tz) : Z :=
  (((ymd2ord (year dt) (month dt) (day dt) - ymd2ord 1970 1 1) * 86400
    + hour dt * 3600 + minute dt * 60 + second dt) * 1000000
   + microsecond dt) - off.

End PyDatetime.

(* ================================================================== *)
(** * The listener *)

(** [HWM_PCTS = [1.00, 0.99, 0.95]] *)
Definition HWM_PCTS : list float :=
  [PyFloat.literal 100 2; PyFloat.literal 99 2; PyFloat.literal 95 2].

Section Helpers.

(** [datetime.datetime.fromisoformat]; its grammar depends on the
    interpreter's version. *)
Variable fromisoformat : str -> Py datetime.

(** [dt.timestamp()] of a naive [dt], which reads the host's time zone. *)
Variable local_timestamp : datetime -> Py float.

(** [dt.timestamp()]: for an aware [dt],
    [(dt - epoch).total_seconds()], the microseconds divided by [10**6]. *)
Definition timestamp (dt : datetime) : Py float :=
  match tzinfo dt with
  | Some off => PyFloat.int_true_divide (PyDatetime.micros_since_epoch dt off) (10 ^ 6)
  | None => local_timestamp dt
  end.

Definition parse_send_ms (obj : PyVal) : Py (option Z) :=
  e <- py_get obj "epoch_ms" ;;
  if isinstance_int_float e then
    v <- py_getitem obj "epoch_ms" ;;
    z <- py_int v ;;
    Return (Some z)
  else
    n <- py_get obj "now" ;;
    if isinstance_str n then
      v <- py_getitem obj "now" ;;
      s <- py_strip v ;;
      try_except
        (let s := if PyStr.endswith s "Z"
                  then PyStr.drop_last s +s "+00:00"
                  else s in
         dt <- fromisoformat s ;;
         let dt := match tzinfo dt with
                   | None => PyDatetime.replace_tzinfo dt (Some PyDatetime.utc)
                   | Some _ => dt
                   end in
         t <- timestamp dt ;;
         x <- PyFloat.mul_int t 1000 ;;
         z <- PyFloat.to_int x ;;
         Return (Some z))
        is_ValueError
        (Return None)
    else Return None.

(** [a or <rest>]: the rest is evaluated only when [a] is falsy. *)
Definition or_else (a : Py PyVal) (rest : Py PyVal) : Py PyVal :=
  v <- a ;;
  if truthy v then Return v else rest.

Definition task_key (obj : PyVal) : Py PyVal :=
  or_else (py_get obj "task")
 (or_else (py_get obj "name")
 (or_else (py_get obj "tag")
 (or_else (py_get obj "event")
          (Return (VStr "UNKNOWN"))))).

Definition percentile_hwm (values : list Z) (q : float) : Py float :=
  match values with
  | [] => Return PyFloat.nan
  | _ =>
      let vals := sorted values in
      let n := len vals in
      x <- PyFloat.mul_int q n ;;
      c <- PyFloat.ceil x ;;
      let k := Z.max 1 c - 1 in
      v <- list_getitem vals k ;;
      PyFloat.of_int v
  end.

(** [sep.join(parts)] *)
Fixpoint join (sep : str) (parts : list str) : str :=
  match parts with
  | [] => ""
  | [p] => p
  | p :: r => p +s sep +s join sep r
  end.

(** The body of the [for p in pcts] loop, which appends to [parts]. *)
Fixpoint format_hwms_loop (values : list Z) (pcts : list float) (parts : list str)
  : Py (list str) :=
  match pcts with
  | [] => Return parts
  | p :: pcts' =>
      v <- percentile_hwm values p ;;
      x <- PyFloat.mul_int p 100 ;;
      pc <- PyFloat.to_int x ;;
      let label := "HWM(" +s PyStr.of_int pc +s "%)" in
      format_hwms_loop values pcts'
        (parts ++ [label +s "=" +s PyFloat.format_f 0 v +s "ms"])
  end.

Definition format_hwms (values : list Z) (pcts : list float) : Py str :=
  parts <- format_hwms_loop values pcts [] ;;
  Return (join " | " parts).

End Helpers.

(** ** The aggregation store and the console *)

(** [hash(v)] succeeds: lists and dicts are unhashable. *)
Definition hashable (v : PyVal) : bool :=
  match v with
  | VList _ | VDict _ => false
  | _ => true
  end.

(** The number a [bool], [int] or [float] stands for. *)
Definition as_number (v : PyVal) : option (Z + float) :=
  match v with
  | VBool b => Some (inl (if b then 1 else 0))
  | VInt z => Some (inl z)
  | VFloat f => Some (inr f)
  | _ => None
  end.

(** [a == b] between a stored key and a fresh, hashable key: strings by
    content, numbers by value across [bool], [int] and [float]; a NaN
    equals nothing. *)
Definition key_eqb (a b : PyVal) : bool :=
  match a, b with
  | VNone, VNone => true
  | VStr x, VStr y => PyStr.eqb x y
  | _, _ =>
      match as_number a, as_number b with
      | Some (inl x), Some (inl y) => x =? y
      | Some (inl x), Some (inr g) => PyFloat.eq_int g x
      | Some (inr f), Some (inl y) => PyFloat.eq_int f y
      | Some (inr f), Some (inr g) => PyFloat.eqb f g
      | _, _ => false
      end
  end.

(** The dict [delays_by_task], in insertion order: each task key with its
    list of delays. *)
Definition store : Type := list (PyVal * list Z).

(** A reference to one of the store's lists: its position in the dict. *)
Definition ref : Set := nat.

Fixpoint store_find (st : store) (k : PyVal) : option ref :=
  match st with
  | [] => None
  | (k', _) :: r =>
      if key_eqb k' k then Some O
      else match store_find r k with
           | Some i => Some (S i)
           | None => None
           end
  end.

(** What the console shows, one constructor per [print] of the listener,
    carrying the values its f-string interpolates. *)
Inductive line : Type :=
| LineReceived (local_hms host : str) (port : Z) (txt : str)
    (* f"[{local_hms}] {addr[0]}:{addr[1]} -> {txt}" *)
| LineSample (tname : PyVal) (delay_ms wcrt : Z) (hwms_short : str) (n : Z)
    (* f"   {tname}: delay={delay_ms}ms | WCRT={wcrt}ms | {hwms_short} | n={len(arr)}" *)
| LineNoSamples
    (* "\nNenhuma amostra recebida." *)
| LineReportHeader
    (* "\nRelatorio final por tarefa (WCRT e HWMs):" *)
| LineTask (t : PyVal) (n : Z) (wcrt avg hwms : str).
    (* f" - {t}: n={n} | WCRT={wcrt:.0f}ms | avg={avg:.1f}ms | {hwms}" *)

Record world : Type := mk_world {
  delays_by_task : store;
  stdout : list line
}.

(** Code that reads and writes the process state and may raise; what was
    written before an exception stays written. *)
Definition M (A : Type) : Type := world -> Py A * world.

Definition ret {A : Type} (a : A) : M A := fun w => (Return a, w).

Definition bindM {A B : Type} (m : M A) (k : A -> M B) : M B :=
  fun w =>
    match m w with
    | (Return a, w') => k a w'
    | (Raise e, w') => (Raise e, w')
    end.

Definition lift {A : Type} (p : Py A) : M A := fun w => (p, w).

Definition try_exceptM {A : Type} (m : M A) (caught : exn -> bool) (h : M A) : M A :=
  fun w =>
    match m w with
    | (Return a, w') => (Return a, w')
    | (Raise e, w') => if caught e then h w' else (Raise e, w')
    end.

Notation "x <~ m ;; k" := (bindM m (fun x => k))
  (at level 61, m at next level, right associativity) : py_scope.
Notation "m ;;; k" := (bindM m (fun _ => k))
  (at level 61, right associativity) : py_scope.

(** [print(l)]; writing to the console is taken to succeed. *)
Definition print (l : line) : M unit :=
  fun w => (Return tt, mk_world (delays_by_task w) (stdout w ++ [l])).

(** [delays_by_task[k]] on the [defaultdict(list)]: hashes the key, and
    inserts an empty list under a key that is not there yet. *)
Definition store_getitem (k : PyVal) : M ref :=
  fun w =>
    if hashable k then
      match store_find (delays_by_task w) k with
      | Some i => (Return i, w)
      | None =>
          (Return (length (delays_by_task w)),
           mk_world (delays_by_task w ++ [(k, [])]) (stdout w))
      end
    else (Raise TypeError, w).

Fixpoint store_append (st : store) (arr : ref) (x : Z) : store :=
  match st, arr with
  | [], _ => []
  | (k, l) :: r, O => (k, l ++ [x]) :: r
  | kl :: r, S i => kl :: store_append r i x
  end.

(** [arr.append(x)], in place: the store sees it. *)
Definition list_append (arr : ref) (x : Z) : M unit :=
  fun w => (Return tt, mk_world (store_append (delays_by_task w) arr x) (stdout w)).

(** Reading the list [arr] refers to. *)
Definition deref (arr : ref) : M (list Z) :=
  fun w => (Return (nth arr (map snd (delays_by_task w)) []), w).

(** ** The report *)

(** [t.lower()]-keyed entries, as [sorted(..., key=...)] computes them
    before sorting; only a [str] has the method. *)
Fixpoint keyed (lower : str -> str) (items : store)
  : Py (list (str * (PyVal * list Z))) :=
  match items with
  | [] => Return []
  | (t, arr) :: r =>
      k <- match t with
           | VStr s => Return (lower s)
           | _ => Raise AttributeError
           end ;;
      ks <- keyed lower r ;;
      Return ((k, (t, arr)) :: ks)
  end.

(** Stable insertion: after every entry whose key is not greater. *)
Fixpoint insert_keyed {A : Type} (x : str * A) (l : list (str * A)) : list (str * A) :=
  match l with
  | [] => [x]
  | y :: r =>
      if PyStr.leb (fst y) (fst x) then y :: insert_keyed x r
      else x :: l
  end.

(** [sorted(items, key=lambda kv: kv[0].lower())] *)
Definition sorted_by_key (lower : str -> str) (items : store) : Py store :=
  ks <- keyed lower items ;;
  Return (map snd (fold_left (fun acc x => insert_keyed x acc) ks [])).

(** [format(x, ".<d>f")] for an [int] or a [float]; an [int] is converted
    to [float] first. *)
Definition format_num_f (d : nat) (x : Z + float) : Py str :=
  match x with
  | inl z => f <- PyFloat.of_int z ;; Return (PyFloat.format_f d f)
  | inr f => Return (PyFloat.format_f d f)
  end.

Section Listener.

Variable fromisoformat : str -> Py datetime.
Variable local_timestamp : datetime -> Py float.

(** [json.loads] *)
Variable json_loads : str -> Py PyVal.

(** [data.decode("utf-8", "ignore")] *)
Variable utf8_decode_ignore : list Byte.byte -> str.

(** [str.lower] *)
Variable str_lower : str -> str.

(** The body of [for t, arr in sorted(...)] in [print_summary]. *)
Fixpoint print_summary_loop (items : store) : M unit :=
  match items with
  | [] => ret tt
  | (t, arr) :: r =>
      let n := len arr in
      wcrt <~ lift (match arr with
                    | [] => Return (inr PyFloat.nan)
                    | _ => m <- py_max arr ;; Return (inl m)
                    end) ;;
      hwms <~ lift (format_hwms arr HWM_PCTS) ;;
      avg <~ lift (if n =? 0 then Return PyFloat.nan
                   else PyFloat.int_true_divide (py_sum arr) n) ;;
      wcrt_s <~ lift (format_num_f 0 wcrt) ;;
      print (LineTask t n wcrt_s (PyFloat.format_f 1 avg) hwms) ;;;
      print_summary_loop r
  end.

Definition print_summary : M unit :=
  fun w =>
    match delays_by_task w with
    | [] => print LineNoSamples w
    | items =>
        (print LineReportHeader ;;;
         items' <~ lift (sorted_by_key str_lower items) ;;
         print_summary_loop items') w
    end.

(** [handle_sigint]: the report, then [sys.exit(0)]; the value is the
    exit status. *)
Definition handle_sigint : M Z :=
  print_summary ;;;
  ret 0.

(** A datagram as one turn of the loop reads it: what [recvfrom]
    returned, and the two clock readings taken right after. *)
Record datagram : Set := mk_datagram {
  data : list Byte.byte;
  addr : str * Z;
  time_ns : Z;                 (* time.time_ns() *)
  local_hms : str              (* datetime.now().strftime("%H:%M:%S") *)
}.

(** One turn of [while True]. *)
Definition iteration (d : datagram) : M unit :=
  let recv_ms := time_ns d / 1000000 in
  let txt := utf8_decode_ignore (data d) in
  print (LineReceived (local_hms d) (fst (addr d)) (snd (addr d)) txt) ;;;
  try_exceptM
    (obj <~ lift (json_loads txt) ;;
     send_ms <~ lift (parse_send_ms fromisoformat local_timestamp obj) ;;
     match send_ms with
     | None => ret tt
     | Some send_ms =>
         let delay_ms := recv_ms - send_ms in
         tname <~ lift (task_key obj) ;;
         arr <~ store_getitem tname ;;
         list_append arr delay_ms ;;;
         (* [arr] is read three times below and not written in between *)
         vals <~ deref arr ;;
         wcrt <~ lift (py_max vals) ;;
         hwms_short <~ lift (format_hwms vals
                               [PyFloat.literal 100 2; PyFloat.literal 99 2]) ;;
         print (LineSample tname delay_ms wcrt hwms_short (len vals))
     end)
    is_JSONDecodeError
    (ret tt).

(** The loop over the datagrams received so far; an exception that
    leaves a turn ends the process. *)
Fixpoint main_loop (ds : list datagram) : M unit :=
  match ds with
  | [] => ret tt
  | d :: r => iteration d ;;; main_loop r
  end.

End Listener.

(** The state at start-up: [defaultdict(list)], nothing printed by the
    loop yet. *)
Definition initial_world : world := mk_world [] [].

(* ================================================================== *)
(** * Reference instances of the library functions

    The listener is parametric in the interpreter's library.  The
    instances below are used to run it on concrete datagrams. *)

Module Ref.

Definition digit (c : N) : option Z :=
  if ((48 <=? c) && (c <=? 57))%N then Some (Z.of_N c - 48) else None.

Fixpoint digits_value (l : list N) (acc : Z) : option Z :=
  match l with
  | [] => Some acc
  | c :: r =>
      match digit c with
      | Some d => digits_value r (10 * acc + d)
      | None => None
      end
  end.

(** A non-empty run of decimal digits. *)
Definition field (l : list N) : option Z :=
  match l with
  | [] => None
  | _ => digits_value l 0
  end.

Definition days_in_month (y m : Z) : Z :=
  if (m =? 2) && PyDatetime.is_leap y then 29
  else nth (Z.to_nat m) [0; 31; 28; 31; 30; 31; 30; 31; 31; 30; 31; 30; 31] 0.

(** [YYYY-MM-DD] *)
Definition parse_date (l : list N) : option (Z * Z * Z) :=
  match l with
  | [y1; y2; y3; y4; 45%N; m1; m2; 45%N; d1; d2] =>
      match field [y1; y2; y3; y4], field [m1; m2], field [d1; d2] with
      | Some y, Some m, Some d =>
          if (1 <=? y) && (1 <=? m) && (m <=? 12)
             && (1 <=? d) && (d <=? days_in_month y m)
          then Some (y, m, d) else None
      | _, _, _ => None
      end
  | _ => None
  end.

(** [.fff] or [.ffffff], or nothing *)
Definition parse_fraction (l : list N) : option Z :=
  match l with
  | [] => Some 0
  | 46%N :: f =>
      match length f with
      | 3%nat => option_map (Z.mul 1000) (field f)
      | 6%nat => field f
      | _ => None
      end
  | _ => None
  end.

(** [HH:MM:SS[.fff[fff]]] *)
Definition parse_time (l : list N) : option (Z * Z * Z * Z) :=
  match l with
  | h1 :: h2 :: 58%N :: m1 :: m2 :: 58%N :: s1 :: s2 :: rest =>
      match field [h1; h2], field [m1; m2], field [s1; s2], parse_fraction rest with
      | Some h, Some m, Some s, Some us =>
          if (h <? 24) && (m <? 60) && (s <? 60) then Some (h, m, s, us) else None
      | _, _, _, _ => None
      end
  | _ => None
  end.

(** [+HH:MM] or [-HH:MM], or nothing: the offset in microseconds. *)
Definition parse_offset (l : list N) : option (option tz) :=
  match l with
  | [] => Some None
  | [sign; h1; h2; 58%N; m1; m2] =>
      match field [h1; h2], field [m1; m2] with
      | Some h, Some m =>
          if (h <? 24) && (m <? 60) then
            let off := (h * 3600 + m * 60) * 1000000 in
            if (sign =? 43)%N then Some (Some off)
            else if (sign =? 45)%N then Some (Some (- off))
            else None
          else None
      | _, _ => None
      end
  | _ => None
  end.

(** The time text up to the first [+] or [-], and the rest. *)
Fixpoint split_at_sign (l : list N) : list N * list N :=
  match l with
  | [] => ([], [])
  | c :: r =>
      if ((c =? 43) || (c =? 45))%N then ([], l)
      else let '(a, b) := split_at_sign r in (c :: a, b)
  end.

Definition parse_isoformat (l : list N) : option datetime :=
  match parse_date (firstn 10 l) with
  | None => None
  | Some (y, m, d) =>
      match skipn 10 l with
      | [] => Some (mk_datetime y m d 0 0 0 0 None)
      | sep :: t =>
          if ((sep =? 84) || (sep =? 32))%N then
            let '(hms, off) := split_at_sign t in
            match parse_time hms, parse_offset off with
            | Some (h, mi, s, us), Some z => Some (mk_datetime y m d h mi s us z)
            | _, _ => None
            end
          else None
      end
  end.

(** A reader of the isoformat layouts [YYYY-MM-DD] and
    [YYYY-MM-DD(T| )HH:MM:SS[.fff[fff]][(+|-)HH:MM]]; any other text is
    refused with [ValueError]. *)
Definition fromisoformat (s : str) : Py datetime :=
  match parse_isoformat (PyStr.cps s) with
  | Some dt => Return dt
  | None => Raise ValueError
  end.

(** A host whose local time is UTC. *)
Definition local_timestamp (dt : datetime) : Py float :=
  PyFloat.int_true_divide (PyDatetime.micros_since_epoch dt 0) (10 ^ 6).

(** ASCII text decodes to itself; other bytes are dropped here. *)
Definition utf8_decode_ignore (bs : list Byte.byte) : str :=
  Str (filter (fun c => (c <? 128)%N) (map Byte.to_N bs)).

(** The bytes of an ASCII text. *)
Definition encode (s : str) : list Byte.byte :=
  map (fun c => match Byte.of_N c with Some b => b | None => x00 end) (PyStr.cps s).

(** Lower-casing of the letters [A]-[Z]. *)
Definition str_lower (s : str) : str :=
  Str (map (fun c => if ((65 <=? c) && (c <=? 90))%N then (c + 32)%N else c)
           (PyStr.cps s)).

(** A JSON text, written with ['] where the text has a double quote. *)
Definition json_text (s : str) : str :=
  Str (map (fun c => if (c =? 39)%N then 34%N else c) (PyStr.cps s)).

(** The JSON texts of the examples with the values [json.loads] gives
    them; every other text is refused with [JSONDecodeError]. *)
Definition json_table : list (str * PyVal) :=
  [ (json_text "1", VInt 1);
    (json_text "[]", VList []);
    (json_text "{'epoch_ms': NaN}",
      VDict [("epoch_ms"%str, VFloat PyFloat.nan)]);
    (json_text "{'task': 'SORT', 'epoch_ms': 1000}",
      VDict [("task"%str, VStr "SORT"); ("epoch_ms"%str, VInt 1000)]);
    (json_text "{'task': 'SORT', 'epoch_ms': 2000}",
      VDict [("task"%str, VStr "SORT"); ("epoch_ms"%str, VInt 2000)]);
    (json_text "{'task': 'SORT'}", VDict [("task"%str, VStr "SORT")]) ].

Definition json_loads (txt : str) : Py PyVal :=
  match dict_lookup json_table txt with
  | Some v => Return v
  | None => Raise JSONDecodeError
  end.

(** A datagram from a fixed sender carrying the JSON text [txt], received
    [recv_ms] milliseconds after the epoch. *)
Definition dgram (txt : str) (recv_ms : Z) : datagram :=
  mk_datagram (encode (json_text txt)) ("192.168.0.160"%str, 6010)
              (recv_ms * 1000000 + 250000) "12:00:00".

End Ref.

(** The listener on the reference library. *)
Definition ref_parse_send_ms : PyVal -> Py (option Z) :=
  parse_send_ms Ref.fromisoformat Ref.local_timestamp.
Definition ref_iteration : datagram -> M unit :=
  iteration Ref.fromisoformat Ref.local_timestamp Ref.json_loads Ref.utf8_decode_ignore.
Definition ref_main_loop : list datagram -> M unit :=
  main_loop Ref.fromisoformat Ref.local_timestamp Ref.json_loads Ref.utf8_decode_ignore.

(* ================================================================== *)
(** * The design document's vocabulary *)

(** The fields the classifier consults, in order of preference. *)
Definition task_fields : list str := ["task"%str; "name"%str; "tag"%str; "event"%str].

(** The value of a field of a message, [None] when it is absent. *)
Definition field_value (d : list (str * PyVal)) (k : str) : PyVal :=
  match dict_lookup d k with
  | Some v => v
  | None => VNone
  end.

(** The classifier in the document's words: the first truthy value among
    the fields, the sentinel when there is none. *)
Definition first_truthy_field (d : list (str * PyVal)) : PyVal :=
  match find truthy (map (field_value d) task_fields) with
  | Some v => v
  | None => VStr "UNKNOWN"
  end.

(** The quantiles of the listener, as its literals read. *)
Definition q100 : float := PyFloat.literal 100 2.
Definition q95 : float := PyFloat.literal 95 2.

(** [0 < q <= 1.0] for a binary64 [q]. *)
Definition quantile (q : float) : Prop :=
  valid_binary PyFloat.prec PyFloat.emax q = true /\
  SFltb (S754_zero false) q = true /\
  SFleb q q100 = true.

(** The documented example of a [now] field, the text the ISO reader is
    given for it, and the date and time that text denotes. *)
Definition example_now : str := "2025-10-27T17:37:06.388Z".
Definition example_iso : str := "2025-10-27T17:37:06.388+00:00".
Definition example_datetime : datetime :=
  mk_datetime 2025 10 27 17 37 6 388000 (Some PyDatetime.utc).

(** One sample [x] appended to one series of the store: to the series at
    position [i], or to a new series under a key the store did not have. *)
Inductive appended_one (st : store) : store -> Prop :=
| appended_existing (i : nat) (k : PyVal) (l : list Z) (x : Z) :
    nth_error st i = Some (k, l) ->
    appended_one st (firstn i st ++ (k, l ++ [x]) :: skipn (S i) st)
| appended_new (k : PyVal) (x : Z) :
    store_find st k = None ->
    appended_one st (st ++ [(k, [x])]).

(** Append-only growth: every series of [st] is still in [st'], at its
    place and under its key, with its samples as a prefix. *)
Inductive grows : store -> store -> Prop :=
| grows_nil (st' : store) : grows [] st'
| grows_cons (k : PyVal) (l more : list Z) (st st' : store) :
    grows st st' ->
    grows ((k, l) :: st) ((k, l ++ more) :: st').

(** A computation that leaves the store as it found it. *)
Definition keeps_store {A : Type} (m : M A) : Prop :=
  forall w, delays_by_task (snd (m w)) = delays_by_task w.

(** A computation that leaves the store as it found it or appends one
    sample to one series. *)
Definition appends_at_most_one {A : Type} (m : M A) : Prop :=
  forall w,
    delays_by_task (snd (m w)) = delays_by_task w \/
    appended_one (delays_by_task w) (delays_by_task (snd (m w))).

(** The text handed to the ISO reader for a [now] field [s]: stripped,
    with a final [Z] replaced by [+00:00]. *)
Definition iso_text (s : str) : str :=
  let s := PyStr.strip s in
  if PyStr.endswith s "Z" then PyStr.drop_last s +s "+00:00" else s.

(** What the [try] block of [parse_send_ms] computes from the datetime
    the ISO reader returned. *)
Definition epoch_ms_of (local_timestamp : datetime -> Py float) (dt : datetime)
  : Py (option Z) :=
  let dt := match tzinfo dt with
            | None => PyDatetime.replace_tzinfo dt (Some PyDatetime.utc)
            | Some _ => dt
            end in
  t <- timestamp local_timestamp dt ;;
  x <- PyFloat.mul_int t 1000 ;;
  z <- PyFloat.to_int x ;;
  Return (Some z).

(** The literal [2.0], a quantile above the range. *)
Definition q200 : float := PyFloat.literal 2 0.

(** The samples recorded under a key, none when the key is not there. *)
Definition series_of (st : store) (k : PyVal) : list Z :=
  match store_find st k with
  | Some i => nth i (map snd st) []
  | None => []
  end.

(** [delays_by_task[k].append(x)] *)
Definition record (k : PyVal) (x : Z) : M unit :=
  arr <~ store_getitem k ;; list_append arr x.

(** The number of samples in the store. *)
Definition sample_count (st : store) : Z :=
  fold_right (fun kl acc => len (snd kl) + acc) 0 st.

(** A computation that adds at most [n] lines to the console and removes
    none. *)
Definition prints_at_most {A : Type} (n : nat) (m : M A) : Prop :=
  forall w, exists rest,
    stdout (snd (m w)) = stdout w ++ rest /\ (length rest <= n)%nat.

(** The order of the report: by lower-cased task name. *)
Definition key_le (lower : str -> str) (e1 e2 : PyVal * list Z) : Prop :=
  match fst e1, fst e2 with
  | VStr a, VStr b => PyStr.leb (lower a) (lower b) = true
  | _, _ => False
  end.

(** A decoder that answers [v] to every text. *)
Definition json_loads_const (v : PyVal) : str -> Py PyVal := fun _ => Return v.

(* ================================================================== *)
(** * Properties *)

(** ** Task classifier *)

(** C7: for every decoded message the classifier returns the first truthy
    value among [task], [name], [tag], [event], in that order, and the
    literal [UNKNOWN] when no field is truthy; the three examples of the
    document follow. *)
Theorem task_key_first_truthy :
  (forall d : list (str * PyVal),
      task_key (VDict d) = Return (first_truthy_field d)) /\
  task_key (VDict [("task"%str, VStr "SORT")]) = Return (VStr "SORT") /\
  task_key (VDict [("name"%str, VStr "X"); ("task"%str, VStr "")]) = Return (VStr "X") /\
  task_key (VDict []) = Return (VStr "UNKNOWN").
Proof.
  repeat split; try reflexivity.
  intros d. unfold task_key, first_truthy_field, task_fields, or_else, py_get.
  cbn [map find bind]. unfold field_value.
  repeat match goal with
         | |- context [truthy ?v] => destruct (truthy v); try reflexivity
         end.
Qed.

(** ** Timestamp extractor *)

Section Extractor.

Variable fromisoformat : str -> Py datetime.
Variable local_timestamp : datetime -> Py float.

Let extract := parse_send_ms fromisoformat local_timestamp.

(** C10: a message whose [epoch_ms] is a JSON boolean is timestamped on
    the preferred path, [true] as 1 and [false] as 0, whatever the [now]
    field holds and whatever the ISO reader would do with it. *)
Theorem parse_send_ms_bool :
  forall (d : list (str * PyVal)) (b : bool),
    dict_lookup d "epoch_ms" = Some (VBool b) ->
    extract (VDict d) = Return (Some (if b then 1 else 0)).
Proof.
  intros d b H. unfold extract, parse_send_ms, py_get, py_getitem.
  rewrite H. reflexivity.
Qed.

(** C3, at the failing input: a message whose [epoch_ms] is the float
    NaN makes the extractor raise [ValueError], and one whose [epoch_ms]
    is an infinity makes it raise [OverflowError]. *)
Theorem parse_send_ms_non_finite_raises :
  extract (VDict [("epoch_ms"%str, VFloat PyFloat.nan)]) = Raise ValueError /\
  forall s : bool,
    extract (VDict [("epoch_ms"%str, VFloat (S754_infinity s))]) = Raise OverflowError.
Proof.
  split; [reflexivity | intros s; reflexivity].
Qed.

(** On the [now] path, no [ValueError] of the ISO reader escapes. *)
Lemma parse_send_ms_now_no_ValueError :
  forall (d : list (str * PyVal)) (s : str) (e : exn),
    dict_lookup d "epoch_ms" = None ->
    dict_lookup d "now" = Some (VStr s) ->
    extract (VDict d) = Raise e ->
    is_ValueError e = false.
Proof.
  intros d s e H1 H2. unfold extract, parse_send_ms, py_get, py_getitem.
  rewrite H1, H2. cbn [isinstance_int_float isinstance_str bind py_strip].
  unfold try_except.
  match goal with
  | |- match ?m with _ => _ end = _ -> _ => destruct m as [a | e']
  end.
  - discriminate.
  - destruct (is_ValueError e') eqn:E; [discriminate |].
    intros [= <-]. exact E.
Qed.

(** A message with neither field gives no timestamp. *)
Lemma parse_send_ms_absent :
  forall d : list (str * PyVal),
    dict_lookup d "epoch_ms" = None ->
    dict_lookup d "now" = None ->
    extract (VDict d) = Return None.
Proof.
  intros d H1 H2. unfold extract, parse_send_ms, py_get, py_getitem.
  rewrite H1, H2. reflexivity.
Qed.

(** A value that is not a dict has no [get]. *)
Lemma parse_send_ms_not_dict :
  forall obj : PyVal,
    (forall d, obj <> VDict d) ->
    extract obj = Raise AttributeError.
Proof.
  intros obj H. unfold extract, parse_send_ms.
  destruct obj; try reflexivity. now elim (H d).
Qed.

(** C2, as amended: with no [epoch_ms] field and
    [now = "2025-10-27T17:37:06.388Z"], the [Z] is read as UTC and the
    extractor returns 1761586626388. *)
Theorem parse_send_ms_example_now :
  forall d : list (str * PyVal),
    fromisoformat example_iso = Return example_datetime ->
    dict_lookup d "epoch_ms" = None ->
    dict_lookup d "now" = Some (VStr example_now) ->
    extract (VDict d) = Return (Some 1761586626388).
Proof.
  intros d Hiso H1 H2. unfold extract, parse_send_ms, py_get, py_getitem.
  rewrite H1, H2. cbn [isinstance_int_float isinstance_str bind py_strip].
  replace (if PyStr.endswith (PyStr.strip example_now) "Z"
           then PyStr.drop_last (PyStr.strip example_now) +s "+00:00"
           else PyStr.strip example_now)
    with example_iso by (vm_compute; reflexivity).
  cbv zeta. rewrite Hiso. vm_compute. reflexivity.
Qed.

End Extractor.

Lemma parse_send_ms_bool_witness :
  parse_send_ms Ref.fromisoformat Ref.local_timestamp
    (VDict [("now"%str, VStr example_now); ("epoch_ms"%str, VBool true)])
  = Return (Some 1).
Proof.
  apply (parse_send_ms_bool Ref.fromisoformat Ref.local_timestamp
           [("now"%str, VStr example_now); ("epoch_ms"%str, VBool true)] true).
  reflexivity.
Defined.

Lemma parse_send_ms_example_now_witness :
  parse_send_ms Ref.fromisoformat Ref.local_timestamp
    (VDict [("now"%str, VStr example_now)])
  = Return (Some 1761586626388).
Proof.
  apply (parse_send_ms_example_now Ref.fromisoformat Ref.local_timestamp
           [("now"%str, VStr example_now)]); reflexivity.
Defined.

(** C2, as the document states it, fails: the extractor does not return
    1761585426388 for the documented example. *)
Lemma parse_send_ms_example_now_counterexample :
  dict_lookup [("now"%str, VStr example_now)] "epoch_ms" = None /\
  parse_send_ms Ref.fromisoformat Ref.local_timestamp
    (VDict [("now"%str, VStr example_now)])
  <> Return (Some 1761585426388).
Proof.
  split; [reflexivity | vm_compute; discriminate].
Qed.

(** ** The store under the listener's operations *)

Lemma keeps_ret {A : Type} (a : A) : keeps_store (ret a).
Proof. intros w. reflexivity. Qed.

Lemma keeps_lift {A : Type} (p : Py A) : keeps_store (lift p).
Proof. intros w. reflexivity. Qed.

Lemma keeps_print (l : line) : keeps_store (print l).
Proof. intros w. reflexivity. Qed.

Lemma keeps_deref (arr : ref) : keeps_store (deref arr).
Proof. intros w. reflexivity. Qed.

Lemma keeps_bind {A B : Type} (m : M A) (k : A -> M B) :
  keeps_store m -> (forall a, keeps_store (k a)) -> keeps_store (bindM m k).
Proof.
  intros Hm Hk w. unfold bindM. specialize (Hm w).
  destruct (m w) as [[a | e] w1]; cbn [snd] in *.
  - rewrite Hk. exact Hm.
  - exact Hm.
Qed.

Lemma keeps_try {A : Type} (m : M A) (caught : exn -> bool) (h : M A) :
  keeps_store m -> keeps_store h -> keeps_store (try_exceptM m caught h).
Proof.
  intros Hm Hh w. unfold try_exceptM. specialize (Hm w).
  destruct (m w) as [[a | e] w1]; cbn [snd] in *; [exact Hm |].
  destruct (caught e); cbn [snd]; [rewrite Hh |]; exact Hm.
Qed.

Lemma keeps_then_appends {A B : Type} (m : M A) (k : A -> M B) :
  keeps_store m -> (forall a, appends_at_most_one (k a)) ->
  appends_at_most_one (bindM m k).
Proof.
  intros Hm Hk w. unfold bindM. specialize (Hm w).
  destruct (m w) as [[a | e] w1]; cbn [snd] in *.
  - rewrite <- Hm. apply Hk.
  - left. exact Hm.
Qed.

Lemma appends_then_keeps {A B : Type} (m : M A) (k : A -> M B) :
  appends_at_most_one m -> (forall a, keeps_store (k a)) ->
  appends_at_most_one (bindM m k).
Proof.
  intros Hm Hk w. unfold bindM. specialize (Hm w).
  destruct (m w) as [[a | e] w1]; cbn [snd] in *.
  - rewrite Hk. exact Hm.
  - exact Hm.
Qed.

Lemma keeps_appends {A : Type} (m : M A) :
  keeps_store m -> appends_at_most_one m.
Proof. intros H w. left. apply H. Qed.

Lemma appends_try {A : Type} (m : M A) (caught : exn -> bool) (h : M A) :
  appends_at_most_one m -> keeps_store h ->
  appends_at_most_one (try_exceptM m caught h).
Proof.
  intros Hm Hh w. unfold try_exceptM. specialize (Hm w).
  destruct (m w) as [[a | e] w1]; cbn [snd] in *; [exact Hm |].
  destruct (caught e); cbn [snd]; [rewrite Hh |]; exact Hm.
Qed.

Lemma store_find_nth :
  forall (st : store) (k : PyVal) (i : ref),
    store_find st k = Some i -> exists k' l, nth_error st i = Some (k', l).
Proof.
  induction st as [| [k0 l0] st IH]; intros k i H; cbn in H; [discriminate |].
  destruct (key_eqb k0 k).
  - injection H as <-. now exists k0, l0.
  - destruct (store_find st k) as [j |] eqn:E; [| discriminate].
    injection H as <-. cbn. eapply IH. exact E.
Qed.

Lemma store_append_nth :
  forall (st : store) (i : ref) (k : PyVal) (l : list Z) (x : Z),
    nth_error st i = Some (k, l) ->
    store_append st i x = firstn i st ++ (k, l ++ [x]) :: skipn (S i) st.
Proof.
  induction st as [| [k0 l0] st IH]; intros i k l x H.
  - destruct i; discriminate.
  - destruct i as [| i]; cbn in H.
    + injection H as -> ->. reflexivity.
    + cbn. f_equal. now apply IH.
Qed.

Lemma store_append_new :
  forall (st : store) (k : PyVal) (x : Z),
    store_append (st ++ [(k, [])]) (length st) x = st ++ [(k, [x])].
Proof.
  induction st as [| [k0 l0] st IH]; intros k x; cbn; [reflexivity |].
  f_equal. apply IH.
Qed.

(** Looking up the series of a key and appending to it: one sample in
    one series, unless the key cannot be hashed. *)
Lemma record_appends_one :
  forall (tname : PyVal) (x : Z),
    appends_at_most_one (arr <~ store_getitem tname ;; list_append arr x).
Proof.
  intros tname x w. unfold bindM, store_getitem, list_append.
  destruct (hashable tname); [| now left].
  destruct (store_find (delays_by_task w) tname) as [i |] eqn:E; cbn; right.
  - destruct (store_find_nth _ _ _ E) as (k & l & Hn).
    rewrite (store_append_nth _ _ _ _ _ Hn). now apply appended_existing.
  - rewrite store_append_new. now apply appended_new.
Qed.

Lemma grows_refl : forall st : store, grows st st.
Proof.
  induction st as [| [k l] st IH]; [constructor |].
  rewrite <- (app_nil_r l) at 2. now constructor.
Qed.

Lemma grows_app : forall st more : store, grows st (st ++ more).
Proof.
  induction st as [| [k l] st IH]; intros more; [constructor |].
  cbn. rewrite <- (app_nil_r l) at 2. now constructor.
Qed.

Lemma grows_trans :
  forall a b c : store, grows a b -> grows b c -> grows a c.
Proof.
  intros a b c Hab. revert c.
  induction Hab as [| k l more st st' Hab IH]; intros c Hbc; [constructor |].
  inversion Hbc as [| k' l' more' st1 st1' Hbc' E1 E2]; subst.
  rewrite <- app_assoc. constructor. now apply IH.
Qed.

Lemma appended_one_grows :
  forall st st' : store, appended_one st st' -> grows st st'.
Proof.
  intros st st' H. destruct H as [i k l x Hn | k x Hf].
  - revert i Hn. induction st as [| [k0 l0] st IH]; intros i Hn.
    + destruct i; discriminate.
    + destruct i as [| i]; cbn in Hn.
      * injection Hn as -> ->. cbn. constructor. apply grows_refl.
      * cbn. rewrite <- (app_nil_r l0) at 2. constructor. now apply IH.
  - apply grows_app.
Qed.

(** ** The receive loop *)

Section Loop.

Variable fromisoformat : str -> Py datetime.
Variable local_timestamp : datetime -> Py float.
Variable json_loads : str -> Py PyVal.
Variable utf8_decode_ignore : list Byte.byte -> str.
Variable str_lower : str -> str.

Let extract := parse_send_ms fromisoformat local_timestamp.
Let turn := iteration fromisoformat local_timestamp json_loads utf8_decode_ignore.
Let run := main_loop fromisoformat local_timestamp json_loads utf8_decode_ignore.

(** The payload of a datagram as the loop decodes it. *)
Let text (d : datagram) : str := utf8_decode_ignore (data d).

(** The world once the line of a datagram has been printed. *)
Let logged (d : datagram) (w : world) : world :=
  mk_world (delays_by_task w)
           (stdout w ++ [LineReceived (local_hms d) (fst (addr d)) (snd (addr d)) (text d)]).

(** A payload that is not JSON at all is logged and dropped, and the loop
    goes on. *)
Lemma iteration_not_json :
  forall (d : datagram) (w : world),
    json_loads (text d) = Raise JSONDecodeError ->
    turn d w = (Return tt, logged d w).
Proof.
  intros d w H. unfold turn, iteration, bindM, try_exceptM, lift, print.
  fold (text d). rewrite H. reflexivity.
Qed.

(** A message without a usable timestamp is logged and dropped, and the
    loop goes on. *)
Lemma iteration_no_timestamp :
  forall (d : datagram) (w : world) (obj : PyVal),
    json_loads (text d) = Return obj ->
    extract obj = Return None ->
    turn d w = (Return tt, logged d w).
Proof.
  intros d w obj H1 H2. unfold turn, iteration, bindM, try_exceptM, lift, print.
  fold (text d). rewrite H1. fold extract. rewrite H2. reflexivity.
Qed.

(** C1, at the failing input: a payload that is valid JSON but not an
    object is logged, and then the turn raises [AttributeError], which the
    loop does not catch. *)
Theorem iteration_non_object_raises :
  forall (d : datagram) (w : world) (obj : PyVal),
    json_loads (text d) = Return obj ->
    (forall m, obj <> VDict m) ->
    turn d w = (Raise AttributeError, logged d w) /\
    run [d] w = (Raise AttributeError, logged d w).
Proof.
  intros d w obj H1 H2.
  assert (E : turn d w = (Raise AttributeError, logged d w)).
  { unfold turn, iteration, bindM, try_exceptM, lift, print.
    fold (text d). rewrite H1.
    rewrite (parse_send_ms_not_dict fromisoformat local_timestamp obj H2).
    reflexivity. }
  split; [exact E |].
  unfold run, main_loop, bindM. fold turn. rewrite E. reflexivity.
Qed.

(** An accepted message: what the turn does once the payload is decoded,
    timestamped and classified. *)
Lemma iteration_accepted :
  forall (d : datagram) (w : world) (obj tname : PyVal) (send_ms : Z),
    json_loads (text d) = Return obj ->
    extract obj = Return (Some send_ms) ->
    task_key obj = Return tname ->
    turn d w =
    try_exceptM
      (let delay_ms := time_ns d / 1000000 - send_ms in
       arr <~ store_getitem tname ;;
       list_append arr delay_ms ;;;
       vals <~ deref arr ;;
       wcrt <~ lift (py_max vals) ;;
       hwms_short <~ lift (format_hwms vals
                             [PyFloat.literal 100 2; PyFloat.literal 99 2]) ;;
       print (LineSample tname delay_ms wcrt hwms_short (len vals)))
      is_JSONDecodeError (ret tt) (logged d w).
Proof.
  intros d w obj tname send_ms H1 H2 H3.
  unfold turn, iteration. unfold bindM at 1. unfold print at 1. cbn [fst snd].
  unfold try_exceptM. fold (text d). fold (logged d w).
  unfold bindM at 1. unfold lift at 1. rewrite H1.
  unfold bindM at 1. unfold lift at 1. fold extract. rewrite H2.
  unfold bindM at 1. unfold lift at 1. rewrite H3.
  reflexivity.
Qed.

(** Every turn leaves the store as it was or appends one sample to one
    series. *)
Lemma iteration_appends_at_most_one :
  forall d : datagram, appends_at_most_one (turn d).
Proof.
  intros d. unfold turn, iteration.
  apply keeps_then_appends; [apply keeps_print | intros _].
  apply appends_try; [| apply keeps_ret].
  apply keeps_then_appends; [apply keeps_lift | intros obj].
  apply keeps_then_appends; [apply keeps_lift | intros [send_ms |]].
  2: apply keeps_appends, keeps_ret.
  apply keeps_then_appends; [apply keeps_lift | intros tname].
  cbv zeta. intros w.
  pose proof (record_appends_one tname (time_ns d / 1000000 - send_ms) w) as H.
  revert H. unfold bindM.
  destruct (store_getitem tname w) as [[arr | e] w1]; cbn [snd]; [| auto].
  destruct (list_append arr (time_ns d / 1000000 - send_ms) w1) as [[[] | e] w2] eqn:E2;
    cbn [snd]; [| auto].
  intros H.
  assert (K : keeps_store
                (vals <~ deref arr ;;
                 wcrt <~ lift (py_max vals) ;;
                 hwms_short <~ lift (format_hwms vals
                                       [PyFloat.literal 100 2; PyFloat.literal 99 2]) ;;
                 print (LineSample tname (time_ns d / 1000000 - send_ms) wcrt
                                   hwms_short (len vals)))).
  { apply keeps_bind; [apply keeps_deref | intros vals].
    apply keeps_bind; [apply keeps_lift | intros wcrt].
    apply keeps_bind; [apply keeps_lift | intros hwms].
    apply keeps_print. }
  specialize (K w2). unfold bindM in K. rewrite K. exact H.
Qed.

Lemma print_summary_loop_keeps :
  forall items : store, keeps_store (print_summary_loop items).
Proof.
  induction items as [| [t arr] items IH]; cbn [print_summary_loop].
  - apply keeps_ret.
  - apply keeps_bind; [apply keeps_lift | intros wcrt].
    apply keeps_bind; [apply keeps_lift | intros hwms].
    apply keeps_bind; [apply keeps_lift | intros avg].
    apply keeps_bind; [apply keeps_lift | intros wcrt_s].
    apply keeps_bind; [apply keeps_print | intros _]. exact IH.
Qed.

Lemma handle_sigint_keeps : keeps_store (handle_sigint str_lower).
Proof.
  unfold handle_sigint. apply keeps_bind; [| intros _; apply keeps_ret].
  intros w. unfold print_summary.
  destruct (delays_by_task w) as [| kl st] eqn:E.
  - cbn. exact E.
  - rewrite <- E.
    apply (keeps_bind (print LineReportHeader)); [apply keeps_print | intros _].
    apply keeps_bind; [apply keeps_lift | intros items'].
    apply print_summary_loop_keeps.
Qed.

Lemma main_loop_grows :
  forall (ds : list datagram) (w : world),
    grows (delays_by_task w) (delays_by_task (snd (run ds w))).
Proof.
  induction ds as [| d ds IH]; intros w; cbn.
  - apply grows_refl.
  - unfold bindM. fold turn.
    pose proof (iteration_appends_at_most_one d w) as H.
    destruct (turn d w) as [[[] | e] w1]; cbn [snd] in *.
    + apply grows_trans with (delays_by_task w1); [| apply IH].
      destruct H as [-> | H]; [apply grows_refl | now apply appended_one_grows].
    + destruct H as [-> | H]; [apply grows_refl | now apply appended_one_grows].
Qed.

(** C9: a turn of the loop either appends exactly one sample to exactly
    one series or leaves the store as it was, and leaves it as it was for
    a payload that does not decode and for a message without a timestamp;
    over any run, every series keeps its place, its key and its samples in
    their order, and the report does not touch the store. *)
Theorem store_append_only :
  (forall (d : datagram) (w : world),
      (delays_by_task (snd (turn d w)) = delays_by_task w \/
       appended_one (delays_by_task w) (delays_by_task (snd (turn d w)))) /\
      (forall e, json_loads (text d) = Raise e ->
                 delays_by_task (snd (turn d w)) = delays_by_task w) /\
      (forall obj, json_loads (text d) = Return obj ->
                   extract obj = Return None ->
                   delays_by_task (snd (turn d w)) = delays_by_task w)) /\
  (forall (ds : list datagram) (w : world),
      grows (delays_by_task w) (delays_by_task (snd (run ds w)))) /\
  (forall w : world,
      delays_by_task (snd (handle_sigint str_lower w)) = delays_by_task w).
Proof.
  split; [| split; [exact main_loop_grows | exact handle_sigint_keeps]].
  intros d w. split; [apply iteration_appends_at_most_one |]. split.
  - intros e H. unfold turn, iteration, bindM, try_exceptM, lift, print.
    fold (text d). rewrite H. cbn. now destruct (is_JSONDecodeError e).
  - intros obj H1 H2. now rewrite (iteration_no_timestamp d w obj H1 H2).
Qed.

End Loop.

Section EndToEnd.

Variable fromisoformat : str -> Py datetime.
Variable local_timestamp : datetime -> Py float.
Variable json_loads : str -> Py PyVal.
Variable utf8_decode_ignore : list Byte.byte -> str.
Variable str_lower : str -> str.

Let extract := parse_send_ms fromisoformat local_timestamp.
Let run := main_loop fromisoformat local_timestamp json_loads utf8_decode_ignore.
Let text (d : datagram) : str := utf8_decode_ignore (data d).


End EndToEnd.

(** ** Percentile engine: the empty series *)


(** ** The loop on concrete datagrams *)

Lemma iteration_non_object_raises_witness :
  Ref.json_loads (Ref.utf8_decode_ignore (data (Ref.dgram "1" 5))) = Return (VInt 1) /\
  ref_main_loop [Ref.dgram "1" 5] initial_world
  = (Raise AttributeError,
     mk_world [] [LineReceived "12:00:00" "192.168.0.160" 6010 "1"]).
Proof.
  split; [reflexivity |].
  apply (iteration_non_object_raises
           Ref.fromisoformat Ref.local_timestamp Ref.json_loads Ref.utf8_decode_ignore
           (Ref.dgram "1" 5) initial_world (VInt 1)).
  - reflexivity.
  - discriminate.
Defined.

Lemma store_append_only_witness :
  Ref.json_loads (Ref.utf8_decode_ignore (data (Ref.dgram "hello" 5)))
  = Raise JSONDecodeError /\
  delays_by_task (snd (ref_iteration (Ref.dgram "hello" 5)
                         (mk_world [(VStr "SORT", [10])] [])))
  = [(VStr "SORT", [10])] /\
  ref_parse_send_ms (VDict [("task"%str, VStr "SORT")]) = Return None /\
  delays_by_task (snd (ref_iteration (Ref.dgram "{'task': 'SORT'}" 5)
                         (mk_world [(VStr "SORT", [10])] [])))
  = [(VStr "SORT", [10])].
Proof.
  pose proof (store_append_only
                Ref.fromisoformat Ref.local_timestamp Ref.json_loads
                Ref.utf8_decode_ignore Ref.str_lower) as [H _].
  split; [reflexivity |]. split.
  - apply (proj1 (proj2 (H (Ref.dgram "hello" 5) (mk_world [(VStr "SORT", [10])] [])))
             JSONDecodeError).
    reflexivity.
  - split; [reflexivity |].
    apply (proj2 (proj2 (H (Ref.dgram "{'task': 'SORT'}" 5)
                           (mk_world [(VStr "SORT", [10])] [])))
             (VDict [("task"%str, VStr "SORT")])); reflexivity.
Defined.


(** A payload that is not JSON, then a well-formed one: the store holds
    the one sample of the second. *)
Lemma not_json_then_well_formed :
  ref_main_loop [Ref.dgram "hello" 5;
                 Ref.dgram "{'task': 'SORT', 'epoch_ms': 1000}" 1010]
    initial_world
  = (Return tt,
     mk_world [(VStr "SORT", [10])]
       [LineReceived "12:00:00" "192.168.0.160" 6010 "hello";
        LineReceived "12:00:00" "192.168.0.160" 6010
          (Ref.json_text "{'task': 'SORT', 'epoch_ms': 1000}");
        LineSample (VStr "SORT") 10 10 "HWM(100%)=10ms | HWM(99%)=10ms" 1]).
Proof. vm_compute. reflexivity. Qed.

(** ** Binary64 arithmetic *)

Lemma pow2_pred : forall d : Z, 1 <= d -> 2 ^ d = 2 * 2 ^ (d - 1).
Proof.
  intros d H. rewrite <- Z.pow_succ_r by lia. f_equal. lia.
Qed.

Lemma digits_bounds :
  forall p : positive,
    2 ^ (Zpos (digits2_pos p) - 1) <= Zpos p < 2 ^ Zpos (digits2_pos p).
Proof.
  induction p as [p IH | p IH |]; cbn [digits2_pos].
  - rewrite Pos2Z.inj_succ, Pos2Z.inj_xI.
    replace (Z.succ (Zpos (digits2_pos p)) - 1) with (Zpos (digits2_pos p)) by lia.
    rewrite Z.pow_succ_r by lia.
    rewrite (pow2_pred (Zpos (digits2_pos p))) in * by lia. lia.
  - rewrite Pos2Z.inj_succ. change (Zpos p~0) with (2 * Zpos p).
    replace (Z.succ (Zpos (digits2_pos p)) - 1) with (Zpos (digits2_pos p)) by lia.
    rewrite Z.pow_succ_r by lia.
    rewrite (pow2_pred (Zpos (digits2_pos p))) in * by lia. lia.
  - cbn. lia.
Qed.

Lemma digits_le :
  forall (p : positive) (j : Z), 0 <= j -> Zpos p < 2 ^ j -> Zpos (digits2_pos p) <= j.
Proof.
  intros p j Hj H. destruct (digits_bounds p) as [L _].
  destruct (Z_le_gt_dec (Zpos (digits2_pos p)) j) as [|G]; [assumption | exfalso].
  assert (2 ^ j <= 2 ^ (Zpos (digits2_pos p) - 1)) by (apply Z.pow_le_mono_r; lia).
  lia.
Qed.

Lemma iter_xO_value :
  forall (k p : positive), Zpos (Pos.iter xO p k) = Zpos p * 2 ^ Zpos k.
Proof.
  intros k p. revert p.
  induction k as [| k IH] using Pos.peano_ind; intros p.
  - cbn. lia.
  - rewrite Pos.iter_succ. change (Zpos (Pos.iter xO p k)~0) with (2 * Zpos (Pos.iter xO p k)).
    rewrite IH, Pos2Z.inj_succ, Z.pow_succ_r by lia. lia.
Qed.

Lemma iter_xO_digits :
  forall (k p : positive), digits2_pos (Pos.iter xO p k) = (digits2_pos p + k)%positive.
Proof.
  intros k p. revert p.
  induction k as [| k IH] using Pos.peano_ind; intros p.
  - cbn. lia.
  - rewrite Pos.iter_succ. cbn [digits2_pos]. rewrite IH. lia.
Qed.

(** [shr_1] halves a non-negative mantissa. *)
Lemma shr_1_m :
  forall mrs : shr_record, 0 <= shr_m mrs -> shr_m (shr_1 mrs) = shr_m mrs / 2.
Proof.
  intros [m r s] H. cbn in *. destruct m as [| p | p]; [reflexivity | | lia].
  destruct p as [p | p |]; cbn [shr_m].
  - rewrite Pos2Z.inj_xI. apply Z.div_unique with 1; lia.
  - change (Zpos p~0) with (2 * Zpos p). apply Z.div_unique with 0; lia.
  - reflexivity.
Qed.

Lemma pow2_xO : forall p : positive, 2 ^ Zpos p~0 = 2 ^ Zpos p * 2 ^ Zpos p.
Proof.
  intros p. rewrite <- Z.pow_add_r by lia. f_equal; lia.
Qed.

Lemma pow2_xI : forall p : positive, 2 ^ Zpos p~1 = 2 * (2 ^ Zpos p * 2 ^ Zpos p).
Proof.
  intros p. rewrite <- pow2_xO, <- Z.pow_succ_r by lia. f_equal; lia.
Qed.

Lemma shr_iter_m :
  forall (p : positive) (mrs : shr_record),
    0 <= shr_m mrs ->
    shr_m (iter_pos shr_1 p mrs) = shr_m mrs / 2 ^ Zpos p.
Proof.
  induction p as [p IH | p IH |]; intros mrs H; cbn [iter_pos].
  - assert (H1 : 0 <= shr_m (shr_1 mrs))
      by (rewrite shr_1_m by assumption; apply Z.div_pos; lia).
    assert (H2 : 0 <= shr_m (iter_pos shr_1 p (shr_1 mrs)))
      by (rewrite IH by assumption; apply Z.div_pos; lia).
    rewrite IH, IH, shr_1_m by assumption.
    rewrite !Z.div_div by lia. now rewrite pow2_xI.
  - assert (H2 : 0 <= shr_m (iter_pos shr_1 p mrs))
      by (rewrite IH by assumption; apply Z.div_pos; lia).
    rewrite IH, IH by assumption.
    rewrite !Z.div_div by lia. now rewrite pow2_xO.
  - rewrite shr_1_m by assumption. reflexivity.
Qed.

(** A shift that drops only zero bits is exact. *)
Lemma shr_1_even :
  forall c : Z, 0 <= c ->
    shr_1 (Build_shr_record (c * 2) false false) = Build_shr_record c false false.
Proof.
  intros c H. destruct c as [| p | p]; [reflexivity | | lia].
  cbn [Z.mul Pos.mul]. rewrite Pos.mul_comm. reflexivity.
Qed.

Lemma shr_iter_exact :
  forall (p : positive) (c : Z),
    0 <= c ->
    iter_pos shr_1 p (Build_shr_record (c * 2 ^ Zpos p) false false)
    = Build_shr_record c false false.
Proof.
  induction p as [p IH | p IH |]; intros c H; cbn [iter_pos].
  - rewrite pow2_xI.
    replace (c * (2 * (2 ^ Zpos p * 2 ^ Zpos p))) with (c * 2 ^ Zpos p * 2 ^ Zpos p * 2) by lia.
    rewrite shr_1_even by (apply Z.mul_nonneg_nonneg; [apply Z.mul_nonneg_nonneg |]; lia).
    rewrite IH by (apply Z.mul_nonneg_nonneg; lia). now apply IH.
  - rewrite pow2_xO, Z.mul_assoc.
    rewrite IH by (apply Z.mul_nonneg_nonneg; lia). now apply IH.
  - change (2 ^ 1) with 2. now apply shr_1_even.
Qed.



Lemma bfexp_eq : forall x : Z, fexp PyFloat.prec PyFloat.emax x = Z.max (x - 53) (-1074).
Proof. reflexivity. Qed.

(** A mantissa already at its exponent is left alone. *)
Lemma round_aux_canonical :
  forall (s : bool) (m : positive) (e : Z),
    fexp PyFloat.prec PyFloat.emax (Zpos (digits2_pos m) + e) = e -> e <= 971 ->
    binary_round_aux PyFloat.prec PyFloat.emax s (Zpos m) e loc_Exact = S754_finite s m e.
Proof.
  intros s m e Hc He. unfold binary_round_aux, shr_fexp, Zdigits2.
  rewrite Hc, Z.sub_diag. cbn [shr shr_record_of_loc shr_m loc_of_shr_record round_nearest_even].
  rewrite Hc, Z.sub_diag. cbn [shr shr_record_of_loc shr_m].
  replace (e <=? PyFloat.emax - PyFloat.prec) with true; [reflexivity |].
  symmetry. apply Z.leb_le. change (PyFloat.emax - PyFloat.prec) with 971. lia.
Qed.

(** Trailing zero bits are shifted out exactly. *)
Lemma round_aux_exact :
  forall (s : bool) (m k : positive) (e : Z),
    fexp PyFloat.prec PyFloat.emax (Zpos (digits2_pos m) + e) = e -> e <= 971 ->
    binary_round_aux PyFloat.prec PyFloat.emax s (Zpos (Pos.iter xO m k)) (e - Zpos k) loc_Exact = S754_finite s m e.
Proof.
  intros s m k e Hc He. unfold binary_round_aux at 1. unfold shr_fexp at 1. unfold Zdigits2.
  rewrite iter_xO_digits, Pos2Z.inj_add.
  replace (Zpos (digits2_pos m) + Zpos k + (e - Zpos k)) with (Zpos (digits2_pos m) + e) by lia.
  rewrite Hc. replace (e - (e - Zpos k)) with (Zpos k) by lia.
  cbn [shr shr_record_of_loc]. rewrite iter_xO_value.
  rewrite shr_iter_exact by lia.
  cbn [shr_m loc_of_shr_record round_nearest_even].
  replace (e - Zpos k + Zpos k) with e by lia.
  unfold shr_fexp, Zdigits2. rewrite Hc, Z.sub_diag. cbn [shr shr_record_of_loc shr_m].
  replace (e <=? PyFloat.emax - PyFloat.prec) with true; [reflexivity |].
  symmetry. apply Z.leb_le. change (PyFloat.emax - PyFloat.prec) with 971. lia.
Qed.

(** The binary64 of an integer of magnitude below [2^53]: the integer
    itself, with its mantissa moved up to 53 bits. *)
Lemma binary_round_small :
  forall (s : bool) (p : positive),
    Zpos p < 2 ^ 53 ->
    exists (m : positive) (e : Z),
      binary_round PyFloat.prec PyFloat.emax s p 0 = S754_finite s m e /\
      -52 <= e <= 0 /\
      Zpos m = Zpos p * 2 ^ (- e) /\
      Zpos (digits2_pos m) = 53.
Proof.
  intros s p Hp.
  assert (Hd : Zpos (digits2_pos p) <= 53) by (apply digits_le; [lia | exact Hp]).
  unfold binary_round, shl_align. rewrite Z.add_0_r, bfexp_eq.
  rewrite Z.max_l by lia. rewrite Z.sub_0_r.
  destruct (Zpos (digits2_pos p) - 53) as [| k | k] eqn:Ek; [| lia |].
  - exists p, 0. split; [| split; [lia | split; [cbn; lia | lia]]].
    apply round_aux_canonical; [rewrite bfexp_eq | ]; lia.
  - exists (Pos.iter xO p k), (Zneg k).
    assert (Hk : Zpos (digits2_pos (Pos.iter xO p k)) = 53)
      by (rewrite iter_xO_digits, Pos2Z.inj_add; lia).
    split; [| split; [lia | split; [| exact Hk]]].
    + apply round_aux_canonical; [rewrite bfexp_eq |]; lia.
    + rewrite iter_xO_value. reflexivity.
Qed.


(** [math.ceil] of a positive float with a non-positive exponent. *)
Lemma ceil_finite :
  forall (m : positive) (e : Z),
    e <= 0 ->
    PyFloat.ceil (S754_finite false m e) = Return (- (- Zpos m / 2 ^ (- e))).
Proof.
  intros m e He. unfold PyFloat.ceil. cbn [negb cond_Zopp].
  rewrite <- (Z.opp_involutive e) at 1.
  rewrite Z.shiftl_opp_r, Z.shiftr_div_pow2 by lia. reflexivity.
Qed.

Lemma ceil_exact :
  forall (m : positive) (e n : Z),
    e <= 0 -> Zpos m = n * 2 ^ (- e) ->
    PyFloat.ceil (S754_finite false m e) = Return n.
Proof.
  intros m e n He Hm. rewrite ceil_finite by exact He. f_equal.
  rewrite Hm, <- Z.mul_opp_l, Z.div_mul by (apply Z.pow_nonzero; lia). lia.
Qed.

Lemma ceil_le :
  forall (m : positive) (e n : Z),
    e <= 0 -> Zpos m <= n * 2 ^ (- e) ->
    exists c, PyFloat.ceil (S754_finite false m e) = Return c /\ c <= n.
Proof.
  intros m e n He Hm. rewrite ceil_finite by exact He.
  eexists. split; [reflexivity |].
  assert (P : 0 < 2 ^ (- e)) by (apply Z.pow_pos_nonneg; lia).
  assert (- n <= - Zpos m / 2 ^ (- e)); [| lia].
  apply Z.div_le_lower_bound; [exact P | lia].
Qed.

Lemma round_nearest_even_le :
  forall (x : Z) (l : location), x <= round_nearest_even x l <= x + 1.
Proof.
  intros x l. destruct l as [| []]; cbn; try lia. destruct (Z.even x); lia.
Qed.

(** One alignment of a mantissa that stands for at most [n]: the aligned
    mantissa and its rounding still stand for at most [n]. *)
Lemma shr_fexp_le :
  forall (m E n : Z),
    0 <= m -> E <= 0 -> 0 < n < 2 ^ 53 -> m <= n * 2 ^ (- E) ->
    let '(mrs, e') := shr_fexp PyFloat.prec PyFloat.emax m E loc_Exact in
    e' <= 0 /\
    0 <= shr_m mrs <= n * 2 ^ (- e') /\
    0 <= round_nearest_even (shr_m mrs) (loc_of_shr_record mrs) <= n * 2 ^ (- e').
Proof.
  intros m E n Hm HE Hn Hle. unfold shr_fexp. rewrite bfexp_eq.
  cbn [shr_record_of_loc].
  assert (Ht : Z.max (Zdigits2 m + E - 53) (-1074) <= 0).
  { apply Z.max_lub; [| lia]. destruct m as [| p | p]; [cbn; lia | | lia].
    cbn [Zdigits2].
    assert (Zpos (digits2_pos p) <= 53 - E); [| lia].
    apply digits_le; [lia |].
    apply Z.le_lt_trans with (n * 2 ^ (- E)); [exact Hle |].
    replace (53 - E) with (53 + - E) by lia. rewrite Z.pow_add_r by lia.
    apply Z.mul_lt_mono_pos_r; [apply Z.pow_pos_nonneg; lia | lia]. }
  remember (Z.max (Zdigits2 m + E - 53) (-1074)) as t eqn:Et. clear Et.
  destruct (t - E) as [| k | k] eqn:Ek; cbn [shr].
  - cbn [shr_m loc_of_shr_record round_nearest_even]. lia.
  - replace (E + Zpos k) with t by lia.
    assert (P : 0 < 2 ^ Zpos k) by (apply Z.pow_pos_nonneg; lia).
    assert (Hs : n * 2 ^ (- E) = n * 2 ^ (- t) * 2 ^ Zpos k).
    { rewrite <- Z.mul_assoc, <- Z.pow_add_r by lia. do 2 f_equal. lia. }
    split; [exact Ht |].
    destruct (Z.eq_dec m (n * 2 ^ (- t) * 2 ^ Zpos k)) as [-> | Hne].
    + rewrite shr_iter_exact by (apply Z.mul_nonneg_nonneg; [lia | apply Z.pow_nonneg; lia]).
      cbn [shr_m loc_of_shr_record round_nearest_even].
      assert (0 <= n * 2 ^ (- t)) by (apply Z.mul_nonneg_nonneg; [lia | apply Z.pow_nonneg; lia]).
      lia.
    + pose proof (shr_iter_m k {| shr_m := m; shr_r := false; shr_s := false |} Hm) as Em.
      cbn [shr_m] in Em. rewrite Em.
      assert (L : m / 2 ^ Zpos k < n * 2 ^ (- t))
        by (apply Z.div_lt_upper_bound; [exact P | lia]).
      assert (0 <= m / 2 ^ Zpos k) by (apply Z.div_pos; lia).
      match goal with
      | |- context [round_nearest_even ?x ?l] =>
          pose proof (round_nearest_even_le x l)
      end.
      lia.
  - cbn [shr_m loc_of_shr_record round_nearest_even]. lia.
Qed.

(** Rounding a positive value that is at most the integer [n < 2^53]
    gives a float whose ceiling is at most [n]. *)
Lemma round_aux_le :
  forall (M : positive) (E n : Z),
    E <= 0 -> 0 < n < 2 ^ 53 -> Zpos M <= n * 2 ^ (- E) ->
    exists c, PyFloat.ceil (binary_round_aux PyFloat.prec PyFloat.emax false (Zpos M) E loc_Exact) = Return c /\ c <= n.
Proof.
  intros M E n HE Hn Hle. unfold binary_round_aux.
  pose proof (shr_fexp_le (Zpos M) E n ltac:(lia) HE Hn Hle) as H1.
  destruct (shr_fexp PyFloat.prec PyFloat.emax (Zpos M) E loc_Exact) as [mrs' e'].
  destruct H1 as (He' & _ & Hr).
  pose proof (shr_fexp_le _ e' n (proj1 Hr) He' Hn (proj2 Hr)) as H2.
  destruct (shr_fexp PyFloat.prec PyFloat.emax
              (round_nearest_even (shr_m mrs') (loc_of_shr_record mrs')) e' loc_Exact)
    as [mrs'' e''].
  destruct H2 as (He'' & Hm'' & _).
  destruct (shr_m mrs'') as [| m | m].
  - exists 0. split; [reflexivity | lia].
  - replace (e'' <=? PyFloat.emax - PyFloat.prec) with true
      by (symmetry; apply Z.leb_le; change (PyFloat.emax - PyFloat.prec) with 971; lia).
    apply ceil_le; [exact He'' | lia].
  - lia.
Qed.


Lemma of_int_small :
  forall n : Z,
    0 < n < 2 ^ 53 ->
    exists (m : positive) (e : Z),
      PyFloat.of_int n = Return (S754_finite false m e) /\
      -52 <= e <= 0 /\
      Zpos m = n * 2 ^ (- e) /\
      Zpos (digits2_pos m) = 53.
Proof.
  intros n Hn. destruct n as [| p | p]; [lia | | lia].
  destruct (binary_round_small false p (proj2 Hn)) as (m & e & E & He & Hm & Hd).
  exists m, e. unfold PyFloat.of_int, binary_normalize. rewrite E.
  split; [reflexivity |]. split; [exact He |]. split; [exact Hm | exact Hd].
Qed.

(** An integer of magnitude at most [2^53] converts to the float of the
    same value. *)
Lemma of_int_exact :
  forall z : Z,
    Z.abs z <= 2 ^ 53 ->
    exists f, PyFloat.of_int z = Return f /\ PyFloat.eq_int f z = true.
Proof.
  intros z Hz.
  destruct (Z.eq_dec (Z.abs z) (2 ^ 53)) as [Hb | Hb].
  { destruct z as [| p | p]; cbn [Z.abs] in Hb; [discriminate | |].
    - injection Hb as ->. eexists. split; vm_compute; reflexivity.
    - injection Hb as ->. eexists. split; vm_compute; reflexivity. }
  destruct z as [| p | p]; cbn [Z.abs] in *.
  - eexists. split; reflexivity.
  - destruct (binary_round_small false p ltac:(lia)) as (m & e & E & He & Hm & Hd).
    exists (S754_finite false m e). unfold PyFloat.of_int, binary_normalize. rewrite E.
    split; [reflexivity |]. unfold PyFloat.eq_int. cbn [cond_Zopp].
    destruct (0 <=? e) eqn:L.
    + apply Z.leb_le in L. assert (e = 0) by lia. subst e. cbn in Hm. apply Z.eqb_eq. lia.
    + apply Z.eqb_eq. exact Hm.
  - destruct (binary_round_small true p ltac:(lia)) as (m & e & E & He & Hm & Hd).
    exists (S754_finite true m e). unfold PyFloat.of_int, binary_normalize. rewrite E.
    split; [reflexivity |]. unfold PyFloat.eq_int. cbn [cond_Zopp].
    destruct (0 <=? e) eqn:L.
    + apply Z.leb_le in L. assert (e = 0) by lia. subst e. cbn in Hm. apply Z.eqb_eq. lia.
    + apply Z.eqb_eq. rewrite <- Pos2Z.opp_pos, Hm. lia.
Qed.

Lemma q100_value : q100 = S754_finite false 4503599627370496 (-52).
Proof. vm_compute. reflexivity. Qed.

(** Multiplying by [1.00] changes nothing. *)
Lemma mul_q100 :
  forall (m : positive) (e : Z),
    Zpos (digits2_pos m) = 53 -> -1074 <= e <= 971 ->
    PyFloat.mul q100 (S754_finite false m e) = S754_finite false m e.
Proof.
  intros m e Hd He. rewrite q100_value. unfold PyFloat.mul, SFmul. cbn [xorb].
  change (4503599627370496 * m)%positive with (Pos.iter xO m 52).
  replace (-52 + e) with (e - 52) by lia.
  apply round_aux_exact; [rewrite bfexp_eq |]; lia.
Qed.

(** [math.ceil(1.00 * n)] is [n]. *)
Lemma ceil_mul_q100 :
  forall n : Z,
    0 < n < 2 ^ 53 ->
    (x <- PyFloat.mul_int q100 n ;; PyFloat.ceil x) = Return n.
Proof.
  intros n Hn. destruct (of_int_small n Hn) as (m & e & E & He & Hm & Hd).
  unfold PyFloat.mul_int. rewrite E. cbn [bind].
  rewrite mul_q100 by lia. apply ceil_exact; [lia | exact Hm].
Qed.

(** What [0 < q <= 1.0] says of the mantissa and exponent of [q]. *)
Lemma SFleb_finite_inv :
  forall (m m' : positive) (e e' : Z),
    SFleb (S754_finite false m e) (S754_finite false m' e') = true ->
    e < e' \/ (e = e' /\ (m <= m')%positive).
Proof.
  intros m m' e e'. unfold SFleb, SFcompare.
  destruct (Z.compare_spec e e') as [-> | L | G]; intros H.
  - right. split; [reflexivity |].
    change (Pos.compare_cont Eq m m') with (Pos.compare m m') in H.
    unfold Pos.le. destruct (m ?= m')%positive; [discriminate | discriminate | discriminate H].
  - left. exact L.
  - discriminate H.
Qed.

Lemma quantile_inv :
  forall q : float,
    quantile q ->
    exists (m : positive) (e : Z),
      q = S754_finite false m e /\ e <= -52 /\ Zpos m <= 2 ^ (- e).
Proof.
  intros q (Hv & Hpos & Hle). rewrite q100_value in Hle.
  destruct q as [s | s | | s m e].
  - destruct s; discriminate Hpos.
  - destruct s; [discriminate Hpos | discriminate Hle].
  - discriminate Hpos.
  - destruct s; [discriminate Hpos |]. exists m, e. split; [reflexivity |].
    clear Hpos.
    assert (Hm : Zpos m < 2 ^ 53).
    { clear Hle.
      cbn [valid_binary] in Hv. unfold bounded, canonical_mantissa in Hv.
      apply andb_prop in Hv. destruct Hv as [Hc _]. apply Z.eqb_eq in Hc.
      rewrite bfexp_eq in Hc.
      assert (Hd : Zpos (digits2_pos m) <= 53) by lia.
      destruct (digits_bounds m) as [_ Hu].
      apply Z.lt_le_trans with (2 ^ Zpos (digits2_pos m)); [exact Hu |].
      apply Z.pow_le_mono_r; lia. }
    clear Hv.
    apply SFleb_finite_inv in Hle.
    destruct Hle as [L | [-> L]].
    + split; [apply Z.lt_le_incl; exact L |].
      apply Z.le_trans with (2 ^ 53); [apply Z.lt_le_incl; exact Hm |].
      apply Z.pow_le_mono_r; [reflexivity |]. clear Hm. lia.
    + split; [apply Z.le_refl |]. exact L.
Qed.

(** [math.ceil(q * n)] is defined and at most [n]. *)
Lemma ceil_mul_quantile :
  forall (q : float) (n : Z),
    quantile q -> 0 < n < 2 ^ 53 ->
    exists c, (x <- PyFloat.mul_int q n ;; PyFloat.ceil x) = Return c /\ c <= n.
Proof.
  intros q n Hq Hn.
  destruct (quantile_inv q Hq) as (mq & eq & -> & Heq & Hmq).
  destruct (of_int_small n Hn) as (m & e & E & He & Hm & Hd).
  unfold PyFloat.mul_int. rewrite E. cbn [bind].
  unfold PyFloat.mul, SFmul. cbn [xorb].
  apply round_aux_le; [lia | exact Hn |].
  rewrite Pos2Z.inj_mul, Hm.
  replace (- (eq + e)) with (- eq + - e) by lia. rewrite Z.pow_add_r by lia.
  assert (0 < 2 ^ (- e)) by (apply Z.pow_pos_nonneg; lia).
  assert (0 <= n * 2 ^ (- e)) by (apply Z.mul_nonneg_nonneg; lia).
  replace (n * (2 ^ (- eq) * 2 ^ (- e))) with (2 ^ (- eq) * (n * 2 ^ (- e))) by ring.
  apply Z.mul_le_mono_nonneg_r; assumption.
Qed.

(** ** Sorting and the maximum *)

Lemma sorted_permutation : forall values : list Z, Permutation values (sorted values).
Proof. intros values. apply ZSort.Permuted_sort. Qed.

Lemma len_sorted : forall values : list Z, len (sorted values) = len values.
Proof.
  intros values. unfold len. f_equal. symmetry.
  apply Permutation_length, sorted_permutation.
Qed.

Lemma sorted_In :
  forall (values : list Z) (v : Z), In v (sorted values) <-> In v values.
Proof.
  intros values v. split; apply Permutation_in;
    [apply Permutation_sym |]; apply sorted_permutation.
Qed.

Lemma sorted_ascending :
  forall values : list Z, StronglySorted Z.le (sorted values).
Proof.
  intros values.
  assert (H : StronglySorted (fun x y => is_true (x <=? y)) (sorted values)).
  { apply ZSort.StronglySorted_sort. intros x y z Hxy Hyz.
    unfold is_true, ZOrder.leb in *. rewrite Z.leb_le in *. lia. }
  induction H as [| a l Hl IH Ha]; constructor; [exact IH |].
  rewrite Forall_forall in *. intros x Hx. apply Z.leb_le. now apply Ha.
Qed.

Lemma ascending_nth :
  forall l : list Z,
    StronglySorted Z.le l ->
    forall i j : nat, (i <= j < length l)%nat -> nth i l 0 <= nth j l 0.
Proof.
  intros l H. induction H as [| a l Hl IH Ha]; intros i j Hij; [cbn in Hij; lia |].
  destruct j as [| j].
  - assert (i = 0%nat) by lia. subst i. lia.
  - destruct i as [| i]; cbn [nth].
    + rewrite Forall_forall in Ha. apply Ha. apply nth_In. cbn in Hij. lia.
    + apply IH. cbn in Hij. lia.
Qed.

Lemma fold_max_spec :
  forall (r : list Z) (x : Z),
    In (fold_left Z.max r x) (x :: r) /\
    forall y, In y (x :: r) -> y <= fold_left Z.max r x.
Proof.
  induction r as [| a r IH]; intros x; cbn [fold_left].
  - split; [now left | intros y [E | []]; subst y; lia].
  - destruct (IH (Z.max x a)) as [Hin Hub]. split.
    + destruct Hin as [E | Hin]; [| right; right; exact Hin].
      rewrite <- E. destruct (Z.max_spec x a) as [[_ ->] | [_ ->]]; [right; left | left]; reflexivity.
    + intros y [E | [E | Hy]].
      * subst y. apply Z.le_trans with (Z.max x a); [apply Z.le_max_l | apply Hub; now left].
      * subst y. apply Z.le_trans with (Z.max x a); [apply Z.le_max_r | apply Hub; now left].
      * apply Hub. now right.
Qed.

Lemma py_max_spec :
  forall (values : list Z) (m : Z),
    py_max values = Return m ->
    In m values /\ forall y, In y values -> y <= m.
Proof.
  intros [| x r] m H; [discriminate |]. injection H as <-. apply fold_max_spec.
Qed.

(** The last element of the ascending sort is the maximum. *)
Lemma sorted_last_max :
  forall (values : list Z) (m : Z),
    py_max values = Return m ->
    nth (Z.to_nat (len values - 1)) (sorted values) 0 = m.
Proof.
  intros values m H. destruct (py_max_spec values m H) as [Hin Hub].
  assert (Hn : (0 < length values)%nat) by (destruct values; [discriminate | cbn; lia]).
  assert (Hl : length (sorted values) = length values)
    by (symmetry; apply Permutation_length, sorted_permutation).
  unfold len. replace (Z.to_nat (Z.of_nat (length values) - 1)) with (length values - 1)%nat by lia.
  apply Z.le_antisymm.
  - apply Hub, sorted_In, nth_In. lia.
  - apply sorted_In in Hin. destruct (In_nth _ _ 0 Hin) as (i & Hi & <-).
    apply ascending_nth; [apply sorted_ascending | lia].
Qed.

(** ** Percentile engine *)

Lemma bind_Return_inv :
  forall (A B : Type) (m : Py A) (k : A -> Py B) (b : B),
    bind m k = Return b -> exists a, m = Return a /\ k a = Return b.
Proof.
  intros A B [a | e] k b H; [| discriminate]. now exists a.
Qed.

Lemma list_getitem_nth :
  forall (l : list Z) (k : Z),
    0 <= k < len l -> list_getitem l k = Return (nth (Z.to_nat k) l 0).
Proof.
  intros l k Hk. unfold list_getitem.
  replace (k <? 0) with false by (symmetry; apply Z.ltb_ge; lia).
  replace (0 <=? k) with true by (symmetry; apply Z.leb_le; lia).
  replace (k <? len l) with true by (symmetry; apply Z.ltb_lt; lia).
  reflexivity.
Qed.

Lemma percentile_hwm_nonempty :
  forall (values : list Z) (q : float),
    values <> [] ->
    percentile_hwm values q =
    (x <- PyFloat.mul_int q (len values) ;;
     c <- PyFloat.ceil x ;;
     v <- list_getitem (sorted values) (Z.max 1 c - 1) ;;
     PyFloat.of_int v).
Proof.
  intros values q H. unfold percentile_hwm. rewrite len_sorted.
  destruct values; [now elim H | reflexivity].
Qed.

(** C4, as amended: for a non-empty collection of fewer than [2^53]
    samples whose maximum is [m], the engine at [q = 1.0] returns
    [float(m)], the binary64 conversion of the maximum; when
    [|m| <= 2^53] that float has exactly the value [m]. *)
Theorem percentile_hwm_q100_max :
  forall (values : list Z) (m : Z),
    len values < 2 ^ 53 ->
    py_max values = Return m ->
    percentile_hwm values q100 = PyFloat.of_int m /\
    (Z.abs m <= 2 ^ 53 ->
     exists f, percentile_hwm values q100 = Return f /\ PyFloat.eq_int f m = true).
Proof.
  intros values m Hn Hm.
  assert (Hne : values <> []) by (intros ->; discriminate).
  assert (Hpos : 0 < len values).
  { destruct values; [now elim Hne | unfold len; cbn [length]; lia]. }
  assert (E : percentile_hwm values q100 = PyFloat.of_int m).
  { rewrite percentile_hwm_nonempty by exact Hne.
    destruct (bind_Return_inv _ _ _ _ _ (ceil_mul_q100 (len values) (conj Hpos Hn)))
      as (x & -> & Hc).
    cbn [bind]. rewrite Hc. cbn [bind].
    rewrite list_getitem_nth by (rewrite len_sorted; lia). cbn [bind].
    replace (Z.max 1 (len values) - 1) with (len values - 1) by lia.
    now rewrite (sorted_last_max values m Hm). }
  split; [exact E |]. intros Hb. rewrite E. now apply of_int_exact.
Qed.


(** C4, as the document states it, fails: the maximum 9007199254740993
    comes back as the float 9007199254740992.0, and a maximum of [2^1024]
    makes the engine raise. *)
Lemma percentile_hwm_q100_max_counterexample :
  py_max [9007199254740993] = Return 9007199254740993 /\
  percentile_hwm [9007199254740993] q100
    = Return (S754_finite false 4503599627370496 1) /\
  PyFloat.eq_int (S754_finite false 4503599627370496 1) 9007199254740993 = false /\
  py_max [2 ^ 1024] = Return (2 ^ 1024) /\
  percentile_hwm [2 ^ 1024] q100 = Raise OverflowError.
Proof. repeat split; vm_compute; reflexivity. Qed.

Lemma percentile_hwm_q100_max_witness :
  exists f, percentile_hwm [10; 50] q100 = Return f /\ PyFloat.eq_int f 50 = true.
Proof.
  apply (proj2 (percentile_hwm_q100_max [10; 50] 50 eq_refl eq_refl)).
  vm_compute. discriminate.
Defined.



(* ================================================================== *)
(** * Further properties *)

(** ** More on the timestamp extractor *)

Section ExtractorMore.

Variable fromisoformat : str -> Py datetime.
Variable local_timestamp : datetime -> Py float.

Let extract := parse_send_ms fromisoformat local_timestamp.

(** The [now] path, once [epoch_ms] is not a number and [now] is a
    string. *)
Lemma parse_send_ms_now_path :
  forall (d : list (str * PyVal)) (s : str),
    isinstance_int_float (field_value d "epoch_ms") = false ->
    dict_lookup d "now" = Some (VStr s) ->
    extract (VDict d) =
    try_except (dt <- fromisoformat (iso_text s) ;; epoch_ms_of local_timestamp dt)
               is_ValueError (Return None).
Proof.
  intros d s He Hn. unfold field_value in He.
  unfold extract, parse_send_ms, py_get, py_getitem. cbn [bind].
  rewrite He, Hn. cbn [isinstance_str bind py_strip]. reflexivity.
Qed.

(** X4: on the [now] path a [ValueError] of the ISO reader gives [None],
    and any other exception of the reader leaves the extractor. *)
Theorem parse_send_ms_reader_error :
  forall (d : list (str * PyVal)) (s : str) (e : exn),
    isinstance_int_float (field_value d "epoch_ms") = false ->
    dict_lookup d "now" = Some (VStr s) ->
    fromisoformat (iso_text s) = Raise e ->
    extract (VDict d) = if is_ValueError e then Return None else Raise e.
Proof.
  intros d s e He Hn Hf.
  rewrite (parse_send_ms_now_path d s He Hn), Hf. reflexivity.
Qed.

(** X5: when [epoch_ms] is not a number and [now] is not a string, the
    extractor returns [None] without raising. *)
Theorem parse_send_ms_no_usable_field :
  forall d : list (str * PyVal),
    isinstance_int_float (field_value d "epoch_ms") = false ->
    isinstance_str (field_value d "now") = false ->
    extract (VDict d) = Return None.
Proof.
  intros d He Hn. unfold field_value in He, Hn.
  unfold extract, parse_send_ms, py_get. cbn [bind].
  rewrite He, Hn. reflexivity.
Qed.

End ExtractorMore.

(** X2: the extractor never depends on the time zone of the host. *)
Theorem parse_send_ms_ignores_host_zone :
  forall (fromisoformat : str -> Py datetime)
         (local1 local2 : datetime -> Py float) (obj : PyVal),
    parse_send_ms fromisoformat local1 obj = parse_send_ms fromisoformat local2 obj.
Proof.
  intros f l1 l2 obj. unfold parse_send_ms.
  destruct (py_get obj "epoch_ms") as [e |]; [| reflexivity]. cbn [bind].
  destruct (isinstance_int_float e); [reflexivity |].
  destruct (py_get obj "now") as [n |]; [| reflexivity]. cbn [bind].
  destruct (isinstance_str n); [| reflexivity].
  destruct (py_getitem obj "now") as [v |]; [| reflexivity]. cbn [bind].
  destruct (py_strip v) as [s |]; [| reflexivity]. cbn [bind]. cbv zeta.
  destruct (f _) as [dt |]; [| reflexivity]. cbn [bind].
  destruct dt as [y mo dd h mi se us [z |]]; reflexivity.
Qed.

(** ** Stripping and the [Z] suffix *)

Lemma lstrip_app_fixed :
  forall l suf : list N,
    suf <> [] -> PyStr.lstrip_cps suf = suf ->
    PyStr.lstrip_cps (l ++ suf) = PyStr.lstrip_cps l ++ suf.
Proof.
  intros l suf Hne Hs. induction l as [| c l IH]; cbn [app PyStr.lstrip_cps].
  - exact Hs.
  - destruct (PyStr.isspace c); [exact IH | reflexivity].
Qed.

Lemma lstrip_fixed_app :
  forall a x : list N,
    a <> [] -> PyStr.lstrip_cps a = a -> PyStr.lstrip_cps (a ++ x) = a ++ x.
Proof.
  intros [| c a] x Hne Hs; [now elim Hne |].
  cbn [app PyStr.lstrip_cps] in *.
  destruct (PyStr.isspace c) eqn:E; [| reflexivity].
  exfalso. clear -Hs.
  assert (H : forall l : list N, (length (PyStr.lstrip_cps l) <= length l)%nat).
  { induction l as [| y l IH]; cbn; [lia |]. destruct (PyStr.isspace y); cbn; lia. }
  specialize (H a). rewrite Hs in H. cbn in H. lia.
Qed.

(** Stripping a text that ends in a suffix with no space at either end
    strips the front only. *)
Lemma strip_suffix :
  forall l suf : list N,
    suf <> [] ->
    PyStr.lstrip_cps suf = suf ->
    PyStr.lstrip_cps (rev suf) = rev suf ->
    PyStr.strip (Str (l ++ suf)) = Str (PyStr.lstrip_cps l ++ suf).
Proof.
  intros l suf Hne Hs Hr. unfold PyStr.strip. cbn [PyStr.cps]. f_equal.
  rewrite lstrip_app_fixed by assumption.
  rewrite rev_app_distr, lstrip_fixed_app.
  - now rewrite <- rev_app_distr, rev_involutive.
  - intros E. apply Hne. rewrite <- (rev_involutive suf), E. reflexivity.
  - exact Hr.
Qed.

Lemma endswith_last :
  forall (l : list N) (c x : N),
    PyStr.endswith (Str (l ++ [c])) (Str [x]) = (c =? x)%N.
Proof.
  intros l c x. unfold PyStr.endswith. cbn [PyStr.cps length].
  rewrite length_app. cbn [length].
  replace (1 <=? length l + 1)%nat with true by (symmetry; apply Nat.leb_le; lia).
  replace (length l + 1 - 1)%nat with (length l + 0)%nat by lia.
  rewrite skipn_app, Nat.add_0_r, skipn_all, Nat.sub_diag. cbn [app skipn andb].
  destruct (list_eq_dec N.eq_dec [c] [x]) as [E | E].
  - injection E as ->. symmetry. apply N.eqb_refl.
  - symmetry. apply N.eqb_neq. intros ->. now apply E.
Qed.

(** A final [Z] is read as the offset [+00:00]. *)
Lemma iso_text_Z :
  forall t : str, iso_text (t +s "Z") = iso_text (t +s "+00:00").
Proof.
  intros [l]. unfold iso_text, PyStr.concat. cbn [PyStr.cps].
  rewrite (strip_suffix l [90%N]) by (discriminate || reflexivity).
  change [43; 48; 48; 58; 48; 48]%N with ([43; 48; 48; 58; 48] ++ [48])%N.
  rewrite (strip_suffix l ([43; 48; 48; 58; 48] ++ [48])%N) by (discriminate || reflexivity).
  cbv zeta. rewrite endswith_last. cbn [N.eqb Pos.eqb].
  rewrite (app_assoc (PyStr.lstrip_cps l) [43; 48; 48; 58; 48] [48])%N.
  rewrite endswith_last. cbn [N.eqb Pos.eqb].
  unfold PyStr.drop_last, PyStr.concat. cbn [PyStr.cps].
  rewrite removelast_last, <- app_assoc. reflexivity.
Qed.

Section ExtractorZ.

Variable fromisoformat : str -> Py datetime.
Variable local_timestamp : datetime -> Py float.

(** X3: a [now] text ending in [Z] is read exactly as the same text ending
    in [+00:00]. *)
Theorem parse_send_ms_Z_is_utc :
  forall (d1 d2 : list (str * PyVal)) (t : str),
    isinstance_int_float (field_value d1 "epoch_ms") = false ->
    isinstance_int_float (field_value d2 "epoch_ms") = false ->
    dict_lookup d1 "now" = Some (VStr (t +s "Z")) ->
    dict_lookup d2 "now" = Some (VStr (t +s "+00:00")) ->
    parse_send_ms fromisoformat local_timestamp (VDict d1)
    = parse_send_ms fromisoformat local_timestamp (VDict d2).
Proof.
  intros d1 d2 t E1 E2 N1 N2.
  rewrite (parse_send_ms_now_path _ _ d1 _ E1 N1).
  rewrite (parse_send_ms_now_path _ _ d2 _ E2 N2).
  now rewrite iso_text_Z.
Qed.

End ExtractorZ.

(** [int(x)] of a finite float: the integer part, toward zero. *)
Lemma to_int_truncates :
  forall (s : bool) (m : positive) (e : Z),
    exists z,
      PyFloat.to_int (S754_finite s m e) = Return z /\
      (if s then z <= 0 else 0 <= z) /\
      Z.abs z * 2 ^ Z.max (- e) 0 <= Zpos m * 2 ^ Z.max e 0
        < (Z.abs z + 1) * 2 ^ Z.max (- e) 0.
Proof.
  intros s m e. exists (cond_Zopp s (Z.shiftl (Zpos m) e)).
  split; [reflexivity |].
  assert (H : 0 <= Z.shiftl (Zpos m) e) by (apply Z.shiftl_nonneg; lia).
  assert (A : Z.abs (cond_Zopp s (Z.shiftl (Zpos m) e)) = Z.shiftl (Zpos m) e)
    by (destruct s; cbn [cond_Zopp]; lia).
  split; [destruct s; cbn [cond_Zopp]; lia |].
  rewrite A. clear A.
  destruct (Z_le_gt_dec 0 e) as [L | G].
  - rewrite Z.shiftl_mul_pow2 by lia.
    rewrite (Z.max_r (- e) 0), (Z.max_l e 0) by lia. change (2 ^ 0) with 1. lia.
  - assert (Hsh : Z.shiftl (Zpos m) e = Zpos m / 2 ^ (- e)).
    { rewrite <- (Z.opp_involutive e) at 1.
      rewrite Z.shiftl_opp_r, Z.shiftr_div_pow2 by lia. reflexivity. }
    rewrite Hsh.
    rewrite (Z.max_l (- e) 0), (Z.max_r e 0) by lia. change (2 ^ 0) with 1.
    assert (P : 0 < 2 ^ (- e)) by (apply Z.pow_pos_nonneg; lia).
    pose proof (Z.mul_div_le (Zpos m) (2 ^ (- e)) P).
    pose proof (Z.mul_succ_div_gt (Zpos m) (2 ^ (- e)) P).
    lia.
Qed.

Section ExtractorEpoch.

Variable fromisoformat : str -> Py datetime.
Variable local_timestamp : datetime -> Py float.
Let extract := parse_send_ms fromisoformat local_timestamp.

(** X1: a numeric [epoch_ms] decides the timestamp, whatever [now] holds:
    an [int] is returned as it is, a finite [float] is truncated toward
    zero. *)
Theorem parse_send_ms_epoch_preferred :
  forall d : list (str * PyVal),
    (forall z : Z,
        dict_lookup d "epoch_ms" = Some (VInt z) ->
        extract (VDict d) = Return (Some z)) /\
    (forall (s : bool) (m : positive) (e : Z),
        dict_lookup d "epoch_ms" = Some (VFloat (S754_finite s m e)) ->
        exists z,
          extract (VDict d) = Return (Some z) /\
          (if s then z <= 0 else 0 <= z) /\
          Z.abs z * 2 ^ Z.max (- e) 0 <= Zpos m * 2 ^ Z.max e 0
            < (Z.abs z + 1) * 2 ^ Z.max (- e) 0).
Proof.
  intros d. split.
  - intros z H. unfold extract, parse_send_ms, py_get, py_getitem.
    rewrite H. reflexivity.
  - intros s m e H. destruct (to_int_truncates s m e) as (z & Hz & Hs & Hb).
    exists z. split; [| split; assumption].
    unfold extract, parse_send_ms, py_get, py_getitem. rewrite H.
    cbn [bind isinstance_int_float py_int]. rewrite Hz. reflexivity.
Qed.

End ExtractorEpoch.

(** X6: the classifier never returns a falsy key. *)
Theorem task_key_truthy :
  forall obj v : PyVal, task_key obj = Return v -> truthy v = true.
Proof.
  intros obj v. unfold task_key, or_else, py_get.
  destruct obj; try discriminate. cbn [bind].
  repeat match goal with
         | |- context [if truthy ?x then _ else _] =>
             destruct (truthy x) eqn:?; [intros [= <-]; assumption |]
         end.
  intros [= <-]. reflexivity.
Qed.

(** ** More on the percentile engine *)

(** Two ascending lists with the same elements are the same list. *)
Lemma ascending_unique :
  forall a b : list Z,
    StronglySorted Z.le a -> StronglySorted Z.le b -> Permutation a b -> a = b.
Proof.
  induction a as [| x a IH]; intros b Ha Hb Hp.
  - apply Permutation_nil in Hp. now subst.
  - destruct b as [| y b]; [apply Permutation_sym, Permutation_nil in Hp; discriminate |].
    inversion Ha as [| ? ? Ha' Hx]; subst. inversion Hb as [| ? ? Hb' Hy]; subst.
    rewrite Forall_forall in Hx, Hy.
    assert (E : x = y).
    { assert (Hxin : In x (y :: b)) by (apply (Permutation_in _ Hp); now left).
      assert (Hyin : In y (x :: a))
        by (apply (Permutation_in _ (Permutation_sym Hp)); now left).
      destruct Hxin as [-> | Hxin]; [reflexivity |].
      destruct Hyin as [-> | Hyin]; [reflexivity |].
      specialize (Hx _ Hyin). specialize (Hy _ Hxin). lia. }
    subst y. f_equal. apply IH; [assumption | assumption |].
    now apply Permutation_cons_inv with x.
Qed.

Lemma sorted_canonical :
  forall l l' : list Z, Permutation l l' -> sorted l = sorted l'.
Proof.
  intros l l' H. apply ascending_unique; try apply sorted_ascending.
  apply Permutation_trans with l; [apply Permutation_sym, sorted_permutation |].
  apply Permutation_trans with l'; [exact H | apply sorted_permutation].
Qed.

(** X7: the engine does not depend on the order of the samples. *)
Theorem percentile_hwm_permutation :
  forall (values values' : list Z) (q : float),
    Permutation values values' ->
    percentile_hwm values q = percentile_hwm values' q.
Proof.
  intros values values' q H. unfold percentile_hwm.
  rewrite (sorted_canonical values values' H).
  destruct values as [| x r]; destruct values' as [| x' r']; try reflexivity.
  - apply Permutation_nil in H. discriminate.
  - apply Permutation_sym, Permutation_nil in H. discriminate.
Qed.

(** X8: on a series of one sample every quantile in (0, 1] selects that
    sample. *)
Theorem percentile_hwm_single :
  forall (v : Z) (q : float),
    quantile q -> percentile_hwm [v] q = PyFloat.of_int v.
Proof.
  intros v q Hq.
  destruct (ceil_mul_quantile q 1 Hq ltac:(vm_compute; split; reflexivity))
    as (c & Hc & Hle).
  rewrite percentile_hwm_nonempty by discriminate.
  change (len [v]) with 1.
  destruct (bind_Return_inv _ _ _ _ _ Hc) as (x & -> & Hx).
  cbn [bind]. rewrite Hx. cbn [bind].
  replace (Z.max 1 c - 1) with 0 by lia. reflexivity.
Qed.

(** With samples in range the engine returns a float. *)
Lemma percentile_hwm_defined :
  forall (values : list Z) (q : float),
    len values < 2 ^ 53 ->
    quantile q ->
    (forall v, In v values -> PyFloat.of_int v <> Raise OverflowError) ->
    exists f, percentile_hwm values q = Return f.
Proof.
  intros values q Hn Hq Hconv.
  destruct values as [| x r] eqn:Ev; [now exists PyFloat.nan |].
  rewrite <- Ev in *. assert (Hne : values <> []) by (rewrite Ev; discriminate).
  clear Ev.
  assert (Hpos : 0 < len values).
  { destruct values; [now elim Hne | unfold len; cbn [length]; lia]. }
  destruct (ceil_mul_quantile q (len values) Hq (conj Hpos Hn)) as (c & Hc & Hle).
  rewrite percentile_hwm_nonempty by exact Hne.
  destruct (bind_Return_inv _ _ _ _ _ Hc) as (x0 & -> & Hx).
  cbn [bind]. rewrite Hx. cbn [bind].
  rewrite list_getitem_nth by (rewrite len_sorted; lia). cbn [bind].
  set (v := nth (Z.to_nat (Z.max 1 c - 1)) (sorted values) 0).
  assert (Hv : In v values).
  { apply sorted_In, nth_In.
    assert (len (sorted values) = len values) by apply len_sorted.
    unfold len in *. lia. }
  specialize (Hconv v Hv). unfold PyFloat.of_int, PyFloat.checked in *.
  destruct (binary_normalize PyFloat.prec PyFloat.emax v 0 false);
    try (eexists; reflexivity). now elim Hconv.
Qed.

Lemma q200_value : q200 = S754_finite false 4503599627370496 (-51).
Proof. vm_compute. reflexivity. Qed.

Lemma ceil_mul_q200 :
  forall n : Z,
    0 < n < 2 ^ 52 ->
    (x <- PyFloat.mul_int q200 n ;; PyFloat.ceil x) = Return (2 * n).
Proof.
  intros n Hn.
  destruct (of_int_small n ltac:(lia)) as (m & e & E & He & Hm & Hd).
  unfold PyFloat.mul_int. rewrite E. cbn [bind].
  rewrite q200_value. unfold PyFloat.mul, SFmul. cbn [xorb].
  change (4503599627370496 * m)%positive with (Pos.iter xO m 52).
  replace (-51 + e) with ((e + 1) - 52) by lia.
  rewrite round_aux_exact by (try rewrite bfexp_eq; lia).
  assert (He' : e < 0).
  { destruct (Z.eq_dec e 0) as [-> |]; [exfalso | lia].
    change (2 ^ (- 0)) with 1 in Hm.
    destruct (digits_bounds m) as [L _]. rewrite Hd in L.
    change (2 ^ (53 - 1)) with (2 ^ 52) in L. lia. }
  apply ceil_exact; [lia |].
  rewrite Hm. replace (- e) with (Z.succ (- (e + 1))) by lia.
  rewrite Z.pow_succ_r by lia. ring.
Qed.

(** X9: a quantile outside the range is not clamped: NaN raises
    [ValueError] and 2.0 raises [IndexError], on every non-empty series. *)
Theorem percentile_hwm_bad_quantile :
  forall values : list Z,
    values <> [] ->
    len values < 2 ^ 52 ->
    percentile_hwm values PyFloat.nan = Raise ValueError /\
    percentile_hwm values q200 = Raise IndexError.
Proof.
  intros values Hne Hn.
  assert (Hpos : 0 < len values).
  { destruct values; [now elim Hne | unfold len; cbn [length]; lia]. }
  split.
  - rewrite percentile_hwm_nonempty by exact Hne.
    destruct (of_int_small (len values) ltac:(lia)) as (m & e & E & _).
    unfold PyFloat.mul_int. rewrite E. reflexivity.
  - rewrite percentile_hwm_nonempty by exact Hne.
    destruct (bind_Return_inv _ _ _ _ _ (ceil_mul_q200 (len values) (conj Hpos Hn)))
      as (x & -> & Hx).
    cbn [bind]. rewrite Hx. cbn [bind].
    unfold list_getitem. rewrite len_sorted.
    replace (Z.max 1 (2 * len values) - 1 <? 0) with false
      by (symmetry; apply Z.ltb_ge; lia).
    replace (Z.max 1 (2 * len values) - 1 <? len values) with false
      by (symmetry; apply Z.ltb_ge; lia).
    rewrite andb_false_r. reflexivity.
Qed.

(** X10: at quantile zero the rank is raised to 1 and the engine selects
    the minimum. *)
Theorem percentile_hwm_zero_quantile :
  forall (values : list Z) (s : bool),
    values <> [] ->
    len values < 2 ^ 53 ->
    exists v,
      In v values /\ (forall y, In y values -> v <= y) /\
      percentile_hwm values (S754_zero s) = PyFloat.of_int v.
Proof.
  intros values s Hne Hn.
  assert (Hpos : 0 < len values).
  { destruct values; [now elim Hne | unfold len; cbn [length]; lia]. }
  assert (Hl : (0 < length (sorted values))%nat).
  { assert (len (sorted values) = len values) by apply len_sorted.
    unfold len in *. lia. }
  exists (nth 0 (sorted values) 0). split; [| split].
  - apply sorted_In, nth_In. exact Hl.
  - intros y Hy. apply sorted_In in Hy. destruct (In_nth _ _ 0 Hy) as (i & Hi & <-).
    apply ascending_nth; [apply sorted_ascending | lia].
  - rewrite percentile_hwm_nonempty by exact Hne.
    destruct (of_int_small (len values) (conj Hpos Hn)) as (m & e & E & _).
    unfold PyFloat.mul_int. rewrite E. cbn [bind PyFloat.mul SFmul PyFloat.ceil].
    rewrite list_getitem_nth by (rewrite len_sorted; lia). reflexivity.
Qed.

(** The percentage of a label, [int(p * 100)], is defined for a quantile. *)
Lemma label_defined :
  forall p : float,
    quantile p ->
    exists pc, (x <- PyFloat.mul_int p 100 ;; PyFloat.to_int x) = Return pc.
Proof.
  intros p Hp.
  destruct (ceil_mul_quantile p 100 Hp ltac:(vm_compute; split; reflexivity))
    as (c & Hc & _).
  destruct (bind_Return_inv _ _ _ _ _ Hc) as (x & -> & Hx). cbn [bind].
  destruct x as [s | s | | s m e]; try discriminate; eexists; reflexivity.
Qed.

Lemma format_hwms_loop_defined :
  forall (values : list Z) (pcts : list float) (parts : list str),
    len values < 2 ^ 53 ->
    (forall v, In v values -> PyFloat.of_int v <> Raise OverflowError) ->
    Forall quantile pcts ->
    exists parts',
      format_hwms_loop values pcts parts = Return (parts ++ parts') /\
      length parts' = length pcts.
Proof.
  intros values pcts. induction pcts as [| p pcts IH]; intros parts Hn Hc Hq.
  - exists []. now rewrite app_nil_r.
  - inversion Hq as [| ? ? Hp Hq']; subst. cbn [format_hwms_loop].
    destruct (percentile_hwm_defined values p Hn Hp Hc) as [f ->]. cbn [bind].
    destruct (label_defined p Hp) as [pc Hpc].
    destruct (bind_Return_inv _ _ _ _ _ Hpc) as (x & -> & Hx). cbn [bind].
    rewrite Hx. cbn [bind].
    destruct (IH (parts ++
                  ["HWM("%str +s PyStr.of_int pc +s "%)"%str +s "="%str
                   +s PyFloat.format_f 0 f +s "ms"%str]) Hn Hc Hq')
      as (parts' & -> & Hl).
    eexists. rewrite <- app_assoc. split; [reflexivity |]. cbn. now rewrite Hl.
Qed.

(** X11: with samples that convert to [float] and quantiles in (0, 1],
    [format_hwms] does not raise and gives one part per quantile. *)
Theorem format_hwms_defined :
  forall (values : list Z) (pcts : list float),
    len values < 2 ^ 53 ->
    (forall v, In v values -> PyFloat.of_int v <> Raise OverflowError) ->
    Forall quantile pcts ->
    exists parts,
      length parts = length pcts /\
      format_hwms values pcts = Return (join " | " parts).
Proof.
  intros values pcts Hn Hc Hq. unfold format_hwms.
  destruct (format_hwms_loop_defined values pcts [] Hn Hc Hq) as (parts & -> & Hl).
  exists parts. split; [exact Hl | reflexivity].
Qed.

Lemma concat_empty_l : forall s : str, ""%str +s s = s.
Proof. intros [l]. reflexivity. Qed.

(** X12: an integer of magnitude below [2^53] prints, through [float] and
    [.0f], with its own decimal digits. *)
Theorem format_f_of_int :
  forall (z : Z) (f : float),
    Z.abs z < 2 ^ 53 ->
    PyFloat.of_int z = Return f ->
    PyFloat.format_f 0 f = PyStr.of_int z.
Proof.
  intros z f Hz Hf.
  assert (K : forall (s : bool) (p : positive),
             Zpos p < 2 ^ 53 ->
             PyFloat.of_int (cond_Zopp s (Zpos p)) = Return f ->
             PyFloat.format_f 0 f = (if s then "-"%str else ""%str) +s PyStr.of_int (Zpos p)).
  { intros s p Hp H.
    destruct (binary_round_small s p Hp) as (m & e & E & He & Hm & Hd).
    assert (Ef : f = S754_finite s m e).
    { destruct s; cbn [cond_Zopp Z.opp] in H;
        unfold PyFloat.of_int, binary_normalize in H; rewrite E in H;
        now injection H as <-. }
    subst f. unfold PyFloat.format_f. f_equal.
    change (Z.of_nat 0) with 0. change (10 ^ 0) with 1.
    rewrite (Z.max_r e 0), (Z.max_l (- e) 0) by lia. change (2 ^ 0) with 1.
    rewrite !Z.mul_1_r, Hm. unfold PyFloat.round_half_even.
    assert (P : 0 < 2 ^ (- e)) by (apply Z.pow_pos_nonneg; lia).
    rewrite Z.mod_mul, Z.div_mul by lia.
    change (2 * 0) with 0. replace (0 ?= 2 ^ (- e)) with Lt
      by (symmetry; apply Z.compare_lt_iff; exact P).
    reflexivity. }
  destruct z as [| p | p]; cbn [Z.abs] in Hz.
  - injection Hf as <-. reflexivity.
  - rewrite (K false p Hz Hf). apply concat_empty_l.
  - rewrite (K true p Hz Hf). reflexivity.
Qed.

(** ** More on the store *)

Lemma str_eqb_eq : forall a b : str, PyStr.eqb a b = true <-> a = b.
Proof.
  intros [a] [b]. unfold PyStr.eqb. cbn [PyStr.cps].
  destruct (list_eq_dec N.eq_dec a b) as [-> | H]; split; intros E;
    try reflexivity; try discriminate.
  injection E as ->. now elim H.
Qed.

Lemma key_eqb_str :
  forall (k : PyVal) (t : str), key_eqb k (VStr t) = true <-> k = VStr t.
Proof.
  intros k t. split.
  - destruct k as [| b | z | f | s | l | d]; cbn; try discriminate;
      try (destruct b; discriminate).
    intros H. apply str_eqb_eq in H. now subst.
  - intros ->. cbn. now apply str_eqb_eq.
Qed.

Lemma store_find_bound :
  forall (st : store) (k : PyVal) (i : ref),
    store_find st k = Some i -> (i < length st)%nat.
Proof.
  intros st k i H. destruct (store_find_nth st k i H) as (k' & l & Hn).
  apply nth_error_Some. rewrite Hn. discriminate.
Qed.

Lemma store_find_keys :
  forall (st st' : store) (k : PyVal),
    map fst st = map fst st' -> store_find st k = store_find st' k.
Proof.
  induction st as [| [k0 l0] st IH]; intros [| [k1 l1] st'] k H; try discriminate.
  - reflexivity.
  - cbn in H. injection H as -> H. cbn. now rewrite (IH st' k H).
Qed.

Lemma store_append_keys :
  forall (st : store) (i : ref) (x : Z),
    map fst (store_append st i x) = map fst st.
Proof.
  induction st as [| [k l] st IH]; intros i x; [reflexivity |].
  destruct i; cbn; [reflexivity | now rewrite IH].
Qed.

Lemma store_append_series :
  forall (st : store) (i j : ref) (x : Z),
    (i < length st)%nat ->
    nth j (map snd (store_append st i x)) []
    = if Nat.eqb j i then nth i (map snd st) [] ++ [x] else nth j (map snd st) [].
Proof.
  induction st as [| [k l] st IH]; intros i j x Hi; [cbn in Hi; lia |].
  destruct i as [| i]; destruct j as [| j]; cbn; try reflexivity.
  apply IH. cbn in Hi. lia.
Qed.

Lemma store_find_snoc :
  forall (st : store) (k k' : PyVal) (l : list Z),
    store_find (st ++ [(k, l)]) k' =
    match store_find st k' with
    | Some i => Some i
    | None => if key_eqb k k' then Some (length st) else None
    end.
Proof.
  induction st as [| [k0 l0] st IH]; intros k k' l; cbn.
  - now destruct (key_eqb k k').
  - destruct (key_eqb k0 k'); [reflexivity |]. rewrite IH.
    destruct (store_find st k'); [reflexivity |]. now destruct (key_eqb k k').
Qed.

Lemma nth_snoc_series :
  forall (st : store) (k : PyVal) (l : list Z) (j : nat),
    nth j (map snd (st ++ [(k, l)])) []
    = if Nat.eqb j (length st) then l else nth j (map snd st) [].
Proof.
  intros st k l j. rewrite map_app. cbn [map snd].
  destruct (Nat.eqb j (length st)) eqn:E.
  - apply Nat.eqb_eq in E. subst j.
    rewrite app_nth2 by (rewrite length_map; lia).
    rewrite length_map, Nat.sub_diag. reflexivity.
  - apply Nat.eqb_neq in E.
    destruct (Nat.lt_ge_cases j (length st)) as [L | G].
    + apply app_nth1. now rewrite length_map.
    + rewrite !nth_overflow; try reflexivity; rewrite ?length_app, ?length_map; cbn; lia.
Qed.

(** What recording under a string key does to the store. *)
Lemma record_str :
  forall (t : str) (x : Z) (w : world),
    exists (i : ref) (st' : store),
      store_getitem (VStr t) w = (Return i, mk_world st' (stdout w)) /\
      (i < length st')%nat /\
      nth i (map snd st') [] = series_of (delays_by_task w) (VStr t) /\
      store_find st' (VStr t) = Some i /\
      (forall k', series_of st' k' = series_of (delays_by_task w) k') /\
      (forall k', store_find st' k' = Some i -> key_eqb (VStr t) k' = true).
Proof.
  intros t x [st out]. unfold store_getitem, series_of. cbn [hashable delays_by_task stdout].
  destruct (store_find st (VStr t)) as [i |] eqn:E.
  - exists i, st. split; [reflexivity |]. split; [now apply store_find_bound in E |].
    split; [reflexivity |]. split; [exact E |]. split; [reflexivity |].
    intros k' Hk'. destruct (store_find_nth _ _ _ E) as (k0 & l0 & Hn).
    assert (K0 : key_eqb k0 (VStr t) = true).
    { clear Hk'. revert i E Hn. induction st as [| [k1 l1] st IH]; intros i E Hn; [discriminate |].
      cbn in E. destruct (key_eqb k1 (VStr t)) eqn:K.
      - injection E as <-. cbn in Hn. now injection Hn as <- _.
      - destruct (store_find st (VStr t)) as [j |]; [| discriminate].
        injection E as <-. cbn in Hn. now apply (IH j). }
    apply key_eqb_str in K0. subst k0.
    revert i E Hn Hk'. induction st as [| [k1 l1] st IH]; intros i E Hn Hk'; [discriminate |].
    cbn in E, Hk'. destruct (key_eqb k1 (VStr t)) eqn:K.
    + injection E as <-. apply key_eqb_str in K. subst k1.
      destruct (key_eqb (VStr t) k'); [reflexivity |].
      destruct (store_find st k'); discriminate.
    + destruct (store_find st (VStr t)) as [j |]; [| discriminate].
      injection E as <-. cbn in Hn.
      destruct (key_eqb k1 k'); [discriminate |].
      destruct (store_find st k') as [j' |] eqn:E'; [| discriminate].
      injection Hk' as ->. apply (IH j); [reflexivity | exact Hn | reflexivity].
  - exists (length st), (st ++ [(VStr t, [])]). split; [reflexivity |].
    split; [rewrite length_app; cbn; lia |].
    split; [now rewrite nth_snoc_series, Nat.eqb_refl |].
    split.
    { rewrite store_find_snoc, E.
      replace (key_eqb (VStr t) (VStr t)) with true; [reflexivity |].
      symmetry. now apply key_eqb_str. }
    split.
    + intros k'. rewrite store_find_snoc.
      destruct (store_find st k') as [j |] eqn:E'.
      * rewrite nth_snoc_series.
        apply store_find_bound in E'.
        replace (Nat.eqb j (length st)) with false; [reflexivity |].
        symmetry. apply Nat.eqb_neq. lia.
      * destruct (key_eqb (VStr t) k'); [| reflexivity].
        now rewrite nth_snoc_series, Nat.eqb_refl.
    + intros k'. rewrite store_find_snoc.
      destruct (store_find st k') as [j |] eqn:E'.
      * apply store_find_bound in E'. intros [= ->]. lia.
      * now destruct (key_eqb (VStr t) k').
Qed.

(** X13: recording a sample under a string key puts it at the end of that
    key's series and leaves the series of every other string key alone. *)
Theorem record_then_read :
  forall (t : str) (x : Z) (w : world),
    let w' := snd (record (VStr t) x w) in
    fst (record (VStr t) x w) = Return tt /\
    stdout w' = stdout w /\
    series_of (delays_by_task w') (VStr t)
      = series_of (delays_by_task w) (VStr t) ++ [x] /\
    forall t' : str,
      t' <> t ->
      series_of (delays_by_task w') (VStr t')
        = series_of (delays_by_task w) (VStr t').
Proof.
  intros t x w.
  destruct (record_str t x w) as (i & st' & Hg & Hi & Hs & Hf & Hfr & Hk).
  unfold record, bindM. rewrite Hg. unfold list_append. cbn [fst snd delays_by_task stdout].
  split; [reflexivity |]. split; [reflexivity |]. split.
  - unfold series_of at 1.
    rewrite (store_find_keys _ st' _ (store_append_keys st' i x)), Hf.
    rewrite store_append_series, Nat.eqb_refl by exact Hi. now rewrite Hs.
  - intros t' Hne. rewrite <- (Hfr (VStr t')). unfold series_of.
    rewrite (store_find_keys _ st' _ (store_append_keys st' i x)).
    destruct (store_find st' (VStr t')) as [j |] eqn:E; [| reflexivity].
    rewrite store_append_series by exact Hi.
    destruct (Nat.eqb j i) eqn:Eji; [| reflexivity].
    apply Nat.eqb_eq in Eji. subst j. apply Hk in E.
    apply key_eqb_str in E. injection E as ->. now elim Hne.
Qed.

(** ** More on the receive loop *)




Lemma sample_count_cons :
  forall (kl : PyVal * list Z) (st : store),
    sample_count (kl :: st) = len (snd kl) + sample_count st.
Proof. reflexivity. Qed.

Lemma sample_count_app :
  forall a b : store, sample_count (a ++ b) = sample_count a + sample_count b.
Proof.
  induction a as [| kl a IH]; intros b; [reflexivity |].
  rewrite <- app_comm_cons, !sample_count_cons, IH. lia.
Qed.

Lemma sample_count_appended :
  forall st st' : store,
    appended_one st st' -> sample_count st' = sample_count st + 1.
Proof.
  intros st st' H. destruct H as [i k l x Hn | k x Hf].
  - assert (E : skipn i st = (k, l) :: skipn (S i) st).
    { clear -Hn. revert i Hn. induction st as [| a st IH]; intros i Hn.
      - destruct i; discriminate.
      - destruct i as [| i]; cbn in *; [now injection Hn as -> | now apply IH]. }
    assert (S : sample_count st
                = sample_count (firstn i st) + (len l + sample_count (skipn (S i) st))).
    { rewrite <- sample_count_cons with (kl := (k, l)), <- E, <- sample_count_app.
      now rewrite firstn_skipn. }
    rewrite S, sample_count_app, sample_count_cons. cbn [snd].
    unfold len. rewrite length_app. cbn [length]. lia.
  - rewrite sample_count_app, sample_count_cons. cbn. lia.
Qed.

Lemma prints_ret {A : Type} (a : A) : prints_at_most 0 (ret a).
Proof. intros w. exists []. now rewrite app_nil_r. Qed.

Lemma prints_lift {A : Type} (p : Py A) : prints_at_most 0 (lift p).
Proof. intros w. exists []. now rewrite app_nil_r. Qed.

Lemma prints_deref (arr : ref) : prints_at_most 0 (deref arr).
Proof. intros w. exists []. now rewrite app_nil_r. Qed.

Lemma prints_list_append (arr : ref) (x : Z) : prints_at_most 0 (list_append arr x).
Proof. intros w. exists []. now rewrite app_nil_r. Qed.

Lemma prints_store_getitem (k : PyVal) : prints_at_most 0 (store_getitem k).
Proof.
  intros w. exists []. rewrite app_nil_r. split; [| cbn; lia].
  unfold store_getitem. destruct (hashable k); [| reflexivity].
  now destruct (store_find (delays_by_task w) k).
Qed.

Lemma prints_print (l : line) : prints_at_most 1 (print l).
Proof. intros w. exists [l]. split; [reflexivity | cbn; lia]. Qed.

Lemma prints_bind {A B : Type} (n k : nat) (m : M A) (f : A -> M B) :
  prints_at_most n m -> (forall a, prints_at_most k (f a)) ->
  prints_at_most (n + k) (bindM m f).
Proof.
  intros Hm Hf w. unfold bindM. destruct (Hm w) as (r1 & E1 & L1).
  destruct (m w) as [[a | e] w1]; cbn [snd] in *.
  - destruct (Hf a w1) as (r2 & E2 & L2). exists (r1 ++ r2).
    rewrite E2, E1, <- app_assoc, length_app. split; [reflexivity | lia].
  - exists r1. split; [exact E1 | lia].
Qed.

Lemma prints_try {A : Type} (n : nat) (m : M A) (caught : exn -> bool) (a : A) :
  prints_at_most n m -> prints_at_most n (try_exceptM m caught (ret a)).
Proof.
  intros Hm w. unfold try_exceptM. destruct (Hm w) as (r1 & E1 & L1).
  destruct (m w) as [[x | e] w1]; cbn [snd] in *.
  - exists r1. now split.
  - destruct (caught e); exists r1; now split.
Qed.

Section LoopMore.

Variable fromisoformat : str -> Py datetime.
Variable local_timestamp : datetime -> Py float.
Variable json_loads : str -> Py PyVal.
Variable utf8_decode_ignore : list Byte.byte -> str.

Let extract := parse_send_ms fromisoformat local_timestamp.
Let turn := iteration fromisoformat local_timestamp json_loads utf8_decode_ignore.
Let run := main_loop fromisoformat local_timestamp json_loads utf8_decode_ignore.
Let text (d : datagram) : str := utf8_decode_ignore (data d).
Let logged (d : datagram) (w : world) : world :=
  mk_world (delays_by_task w)
           (stdout w ++ [LineReceived (local_hms d) (fst (addr d)) (snd (addr d)) (text d)]).

(** X16: every turn prints the received line first, then at most one more
    line, whether or not it raises. *)
Theorem iteration_always_logs :
  forall (d : datagram) (w : world),
    exists rest,
      stdout (snd (turn d w))
      = stdout w ++ LineReceived (local_hms d) (fst (addr d)) (snd (addr d)) (text d) :: rest /\
      (length rest <= 1)%nat.
Proof.
  intros d w. unfold turn, iteration. unfold bindM at 1. unfold print at 1.
  cbv beta iota.
  match goal with
  | |- context [try_exceptM ?m ?c ?h] => set (body := try_exceptM m c h)
  end.
  assert (P : prints_at_most 1 body).
  { unfold body. apply prints_try.
    apply (prints_bind 0 1); [apply prints_lift | intros obj].
    apply (prints_bind 0 1); [apply prints_lift | intros [send_ms |]].
    2: { intros w0. destruct (prints_ret tt w0) as (r & E & L). exists r. split; [exact E | lia]. }
    cbv zeta.
    apply (prints_bind 0 1); [apply prints_lift | intros tname].
    apply (prints_bind 0 1); [apply prints_store_getitem | intros arr].
    apply (prints_bind 0 1); [apply prints_list_append | intros _].
    apply (prints_bind 0 1); [apply prints_deref | intros vals].
    apply (prints_bind 0 1); [apply prints_lift | intros wcrt].
    apply (prints_bind 0 1); [apply prints_lift | intros hwms].
    apply prints_print. }
  match goal with
  | |- context [body ?w1] => destruct (P w1) as (rest & E & L)
  end.
  exists rest. rewrite E. cbn [stdout]. rewrite <- app_assoc.
  split; [reflexivity | exact L].
Qed.

(** X17: a timestamped message whose task key is a list or a dict makes
    the turn raise [TypeError], with the store untouched. *)
Theorem iteration_unhashable_key :
  forall (d : datagram) (w : world) (obj tname : PyVal) (send_ms : Z),
    json_loads (text d) = Return obj ->
    extract obj = Return (Some send_ms) ->
    task_key obj = Return tname ->
    hashable tname = false ->
    turn d w = (Raise TypeError, logged d w).
Proof.
  intros d w obj tname send_ms H1 H2 H3 H4. unfold turn.
  rewrite (iteration_accepted _ _ _ _ d w obj tname send_ms H1 H2 H3).
  cbv zeta. unfold try_exceptM, bindM, store_getitem. rewrite H4. reflexivity.
Qed.

(** X18: the loop handles datagrams in order, and once a turn raises no
    later datagram is handled. *)
Theorem main_loop_sequence :
  forall (ds1 ds2 : list datagram) (w w1 : world),
    run ds1 w = (Return tt, w1) ->
    run (ds1 ++ ds2) w = run ds2 w1 /\
    forall (d : datagram) (e : exn) (w2 : world),
      turn d w1 = (Raise e, w2) ->
      run (ds1 ++ d :: ds2) w = (Raise e, w2).
Proof.
  assert (A : forall ds1 ds2 w w1,
             run ds1 w = (Return tt, w1) -> run (ds1 ++ ds2) w = run ds2 w1).
  { induction ds1 as [| d ds1 IH]; intros ds2 w w1 H.
    - cbn in H. unfold ret in H. now injection H as <-.
    - cbn [app]. unfold run in *. cbn [main_loop] in *. unfold bindM in *.
      destruct (iteration _ _ _ _ d w) as [[[] | e] w0]; [| discriminate].
      now apply IH. }
  intros ds1 ds2 w w1 H. split; [now apply A |].
  intros d e w2 Ht. rewrite (A ds1 (d :: ds2) w w1 H).
  unfold run. cbn [main_loop]. unfold bindM. fold turn. now rewrite Ht.
Qed.

(** X15: over any run the number of samples never decreases and grows by
    at most one per datagram. *)
Theorem main_loop_sample_count :
  forall (ds : list datagram) (w : world),
    sample_count (delays_by_task w)
    <= sample_count (delays_by_task (snd (run ds w)))
    <= sample_count (delays_by_task w) + len ds.
Proof.
  induction ds as [| d ds IH]; intros w.
  - cbn. unfold len. cbn. lia.
  - unfold run. cbn [main_loop]. unfold bindM.
    pose proof (iteration_appends_at_most_one fromisoformat local_timestamp
                  json_loads utf8_decode_ignore d w) as H.
    destruct (iteration _ _ _ _ d w) as [[[] | e] w1]; cbn [snd] in *.
    + specialize (IH w1). fold run.
      assert (L : len (d :: ds) = len ds + 1) by (unfold len; cbn [length]; lia).
      destruct H as [E | H]; [rewrite E in IH | apply sample_count_appended in H]; lia.
    + assert (L : 0 <= len ds) by (unfold len; lia).
      assert (L' : len (d :: ds) = len ds + 1) by (unfold len; cbn [length]; lia).
      destruct H as [E | H]; [rewrite E | apply sample_count_appended in H]; lia.
Qed.

End LoopMore.





Lemma quantile_q95 : quantile (PyFloat.literal 95 2).
Proof. repeat split; vm_compute; reflexivity. Qed.

Section LoopAccept.

Variable fromisoformat : str -> Py datetime.
Variable local_timestamp : datetime -> Py float.
Variable json_loads : str -> Py PyVal.
Variable utf8_decode_ignore : list Byte.byte -> str.

Let extract := parse_send_ms fromisoformat local_timestamp.
Let turn := iteration fromisoformat local_timestamp json_loads utf8_decode_ignore.
Let text (d : datagram) : str := utf8_decode_ignore (data d).


(** X20: a payload that is not JSON and a message without a timestamp are
    logged and dropped, and the turn returns normally. *)
Theorem iteration_drops :
  forall (d : datagram) (w : world),
    (json_loads (text d) = Raise JSONDecodeError \/
     exists obj, json_loads (text d) = Return obj /\ extract obj = Return None) ->
    turn d w
    = (Return tt,
       mk_world (delays_by_task w)
         (stdout w ++
          [LineReceived (local_hms d) (fst (addr d)) (snd (addr d)) (text d)])).
Proof.
  intros d w [H | (obj & H1 & H2)].
  - now apply iteration_not_json.
  - now apply iteration_no_timestamp with obj.
Qed.

End LoopAccept.

(** ** More on the report *)

Lemma cps_leb_total :
  forall a b : list N, PyStr.cps_leb a b = false -> PyStr.cps_leb b a = true.
Proof.
  induction a as [| x a IH]; intros [| y b] H; cbn in *; try discriminate; try reflexivity.
  destruct (x <? y)%N eqn:Lxy; [discriminate |].
  destruct (y <? x)%N eqn:Lyx; [reflexivity |]. now apply IH.
Qed.

Lemma str_leb_total :
  forall a b : str, PyStr.leb a b = false -> PyStr.leb b a = true.
Proof. intros a b. apply cps_leb_total. Qed.

Section Keyed.

Variable A : Type.

Let R (a b : str * A) : Prop := PyStr.leb (fst a) (fst b) = true.

Lemma insert_keyed_perm :
  forall (x : str * A) (l : list (str * A)), Permutation (x :: l) (insert_keyed x l).
Proof.
  intros x l. induction l as [| y l IH]; cbn [insert_keyed]; [reflexivity |].
  destruct (PyStr.leb (fst y) (fst x)); [| reflexivity].
  apply perm_trans with (y :: x :: l); [apply perm_swap | now apply perm_skip].
Qed.

Lemma insert_keyed_hd :
  forall (a x : str * A) (l : list (str * A)),
    HdRel R a l -> R a x -> HdRel R a (insert_keyed x l).
Proof.
  intros a x l H Hx. destruct l as [| y l]; cbn [insert_keyed]; [now constructor |].
  destruct (PyStr.leb (fst y) (fst x)); constructor; [| assumption].
  now inversion H.
Qed.

Lemma insert_keyed_sorted :
  forall (x : str * A) (l : list (str * A)),
    Sorted R l -> Sorted R (insert_keyed x l).
Proof.
  intros x l H. induction H as [| y l Hs IH Hh]; cbn [insert_keyed].
  - repeat constructor.
  - destruct (PyStr.leb (fst y) (fst x)) eqn:E.
    + constructor; [exact IH | now apply insert_keyed_hd].
    + constructor; [now constructor |]. constructor. now apply str_leb_total.
Qed.

Lemma fold_insert_keyed :
  forall ks acc : list (str * A),
    Sorted R acc ->
    Sorted R (fold_left (fun acc x => insert_keyed x acc) ks acc) /\
    Permutation (ks ++ acc) (fold_left (fun acc x => insert_keyed x acc) ks acc).
Proof.
  induction ks as [| x ks IH]; intros acc H; cbn [fold_left app].
  - now split.
  - destruct (IH (insert_keyed x acc) (insert_keyed_sorted x acc H)) as [Hs Hp].
    split; [exact Hs |].
    apply perm_trans with (ks ++ insert_keyed x acc); [| exact Hp].
    apply perm_trans with (ks ++ x :: acc);
      [apply Permutation_middle | apply Permutation_app_head, insert_keyed_perm].
Qed.

End Keyed.

Lemma keyed_spec :
  forall (lower : str -> str) (items : store) (ks : list (str * (PyVal * list Z))),
    keyed lower items = Return ks ->
    map snd ks = items /\
    Forall (fun e => exists s, fst (snd e) = VStr s /\ fst e = lower s) ks.
Proof.
  intros lower. induction items as [| [t arr] items IH]; intros ks H; cbn [keyed] in H.
  - injection H as <-. now split.
  - destruct t as [| | | | s | |]; try discriminate. cbn [bind] in H.
    destruct (keyed lower items) as [ks0 |]; [| discriminate]. cbn [bind] in H.
    injection H as <-. destruct (IH ks0 eq_refl) as [Hm Hf]. split.
    + cbn. now rewrite Hm.
    + constructor; [now exists s | exact Hf].
Qed.

Lemma keyed_defined :
  forall (lower : str -> str) (items : store),
    (forall k l, In (k, l) items -> isinstance_str k = true) ->
    exists ks, keyed lower items = Return ks.
Proof.
  intros lower. induction items as [| [t arr] items IH]; intros H.
  - now exists [].
  - destruct IH as [ks Hk]; [intros k l Hin; apply (H k l); now right |].
    pose proof (H t arr (or_introl eq_refl)) as Ht.
    destruct t; try discriminate. cbn [keyed bind]. rewrite Hk. eexists. reflexivity.
Qed.

Lemma keyed_not_str :
  forall (lower : str -> str) (items : store),
    (exists k l, In (k, l) items /\ isinstance_str k = false) ->
    keyed lower items = Raise AttributeError.
Proof.
  intros lower. induction items as [| [t arr] items IH]; intros (k & l & Hin & Hk).
  - destruct Hin.
  - cbn [keyed]. destruct t; try reflexivity. cbn [bind].
    rewrite IH; [reflexivity |].
    destruct Hin as [E | Hin]; [injection E as <- _; discriminate |].
    now exists k, l.
Qed.

(** X22: when every key is a string the report order is a permutation of
    the store in ascending order of the lower-cased key. *)
Theorem sorted_by_key_sorts :
  forall (lower : str -> str) (items : store),
    (forall k l, In (k, l) items -> isinstance_str k = true) ->
    exists items',
      sorted_by_key lower items = Return items' /\
      Permutation items items' /\
      Sorted (key_le lower) items'.
Proof.
  intros lower items H. destruct (keyed_defined lower items H) as [ks Hk].
  destruct (keyed_spec lower items ks Hk) as [Hm Hf].
  destruct (fold_insert_keyed _ ks [] (Sorted_nil _)) as [Hs Hp].
  rewrite app_nil_r in Hp.
  set (ks' := fold_left (fun acc x => insert_keyed x acc) ks []) in *.
  exists (map snd ks'). unfold sorted_by_key. rewrite Hk. cbn [bind]. fold ks'.
  split; [reflexivity |]. split.
  - rewrite <- Hm. now apply Permutation_map.
  - assert (Hf' : Forall (fun e => exists s, fst (snd e) = VStr s /\ fst e = lower s) ks').
    { rewrite Forall_forall in *. intros e He. apply Hf.
      now apply (Permutation_in _ (Permutation_sym Hp)). }
    clear -Hs Hf'. induction Hs as [| e l Hs IH Hh]; cbn [map]; [constructor |].
    inversion Hf' as [| ? ? (s & Es & Ek) Hl]; subst.
    constructor; [now apply IH |].
    destruct Hh as [| e' l' Hr]; cbn [map]; constructor.
    inversion Hl as [| ? ? (s' & Es' & Ek') _]; subst.
    unfold key_le. rewrite Es, Es', <- Ek, <- Ek'. exact Hr.
Qed.

(** X23: when some key is not a string the report raises
    [AttributeError] after the header, before any task line. *)
Theorem print_summary_non_str_key :
  forall (lower : str -> str) (w : world),
    (exists k l, In (k, l) (delays_by_task w) /\ isinstance_str k = false) ->
    print_summary lower w
    = (Raise AttributeError,
       mk_world (delays_by_task w) (stdout w ++ [LineReportHeader])).
Proof.
  intros lower [st out] H. cbn [delays_by_task stdout] in *.
  unfold print_summary. cbn [delays_by_task].
  destruct st as [| kl st]; [destruct H as (k & l & [] & _) |].
  unfold bindM, print, lift, sorted_by_key. cbn [delays_by_task stdout].
  rewrite (keyed_not_str lower (kl :: st) H). reflexivity.
Qed.

Lemma print_summary_loop_lines :
  forall (items : store) (w w' : world),
    print_summary_loop items w = (Return tt, w') ->
    exists lines,
      stdout w' = stdout w ++ lines /\
      map (fun l => match l with LineTask t _ _ _ _ => Some t | _ => None end) lines
      = map (fun kl => Some (fst kl)) items.
Proof.
  induction items as [| [t arr] items IH]; intros w w' H.
  - cbn in H. unfold ret in H. injection H as <-. exists []. now rewrite app_nil_r.
  - cbn [print_summary_loop] in H. unfold bindM, lift in H.
    destruct (match arr with [] => _ | _ => _ end) as [wcrt |]; [| discriminate].
    destruct (format_hwms arr HWM_PCTS) as [hwms |]; [| discriminate].
    destruct (if len arr =? 0 then _ else _) as [avg |]; [| discriminate].
    destruct (format_num_f 0 wcrt) as [ws |]; [| discriminate].
    unfold print at 1 in H.
    destruct (IH _ _ H) as (lines & E & Hl). cbn [stdout] in E.
    eexists (_ :: lines). rewrite E, <- app_assoc. split; [reflexivity |].
    cbn [map fst]. now rewrite Hl.
Qed.

(** X24: a report that returns normally printed the header and then one
    line per task of the store. *)
Theorem print_summary_one_line_per_task :
  forall (lower : str -> str) (w w' : world),
    delays_by_task w <> [] ->
    print_summary lower w = (Return tt, w') ->
    exists lines,
      stdout w' = stdout w ++ LineReportHeader :: lines /\
      Permutation
        (map (fun kl => Some (fst kl)) (delays_by_task w))
        (map (fun l => match l with LineTask t _ _ _ _ => Some t | _ => None end) lines).
Proof.
  intros lower [st out] w' Hne H. cbn [delays_by_task stdout] in *.
  unfold print_summary in H. cbn [delays_by_task] in H.
  destruct st as [| kl st]; [now elim Hne |].
  unfold bindM at 1 in H. unfold print at 1 in H. cbn [delays_by_task stdout] in H.
  unfold bindM at 1 in H. unfold lift at 1 in H.
  unfold sorted_by_key in H.
  destruct (keyed lower (kl :: st)) as [ks |] eqn:Hk; [| discriminate].
  cbn [bind] in H.
  destruct (keyed_spec lower _ ks Hk) as [Hm _].
  destruct (fold_insert_keyed _ ks [] (Sorted_nil _)) as [_ Hp].
  rewrite app_nil_r in Hp.
  destruct (print_summary_loop_lines _ _ _ H) as (lines & E & Hl).
  cbn [stdout] in E. exists lines. rewrite E, <- app_assoc. split; [reflexivity |].
  rewrite Hl, <- Hm, !map_map. apply Permutation_map. exact Hp.
Qed.

Section Shutdown.

Variable fromisoformat : str -> Py datetime.
Variable local_timestamp : datetime -> Py float.
Variable json_loads : str -> Py PyVal.
Variable utf8_decode_ignore : list Byte.byte -> str.
Variable str_lower : str -> str.

Let extract := parse_send_ms fromisoformat local_timestamp.
Let run := main_loop fromisoformat local_timestamp json_loads utf8_decode_ignore.
Let text (d : datagram) : str := utf8_decode_ignore (data d).

(** X21: when every datagram was dropped the store stays empty, one line
    per datagram was printed, and the interrupt handler prints the
    no-samples notice and exits with status 0. *)
Theorem nothing_recorded_report :
  forall (ds : list datagram) (w : world),
    delays_by_task w = [] ->
    Forall (fun d =>
              json_loads (text d) = Raise JSONDecodeError \/
              exists obj, json_loads (text d) = Return obj /\
                          extract obj = Return None) ds ->
    exists w',
      run ds w = (Return tt, w') /\
      delays_by_task w' = [] /\
      len (stdout w') = len (stdout w) + len ds /\
      handle_sigint str_lower w'
      = (Return 0, mk_world [] (stdout w' ++ [LineNoSamples])).
Proof.
  induction ds as [| d ds IH]; intros w Hw Hd.
  - exists w. split; [reflexivity |]. split; [exact Hw |].
    split; [unfold len; cbn; lia |].
    destruct w as [st out]. cbn in Hw. subst st. reflexivity.
  - inversion Hd as [| ? ? Hd1 Hds]; subst.
    set (w1 := mk_world (delays_by_task w)
                 (stdout w ++ [LineReceived (local_hms d) (fst (addr d)) (snd (addr d))
                                            (utf8_decode_ignore (data d))])).
    assert (E : iteration fromisoformat local_timestamp json_loads utf8_decode_ignore d w
                = (Return tt, w1)).
    { destruct Hd1 as [H | (obj & H1 & H2)].
      - now apply iteration_not_json.
      - now apply iteration_no_timestamp with obj. }
    destruct (IH w1 Hw Hds) as (w' & Hr & Hs & Hl & Hh).
    exists w'. unfold run. cbn [main_loop]. unfold bindM. rewrite E.
    split; [exact Hr |]. split; [exact Hs |]. split; [| exact Hh].
    rewrite Hl. unfold w1, len. cbn [stdout]. rewrite length_app. cbn [length]. lia.
Qed.

End Shutdown.

(** ** The further properties on concrete inputs *)

Lemma parse_send_ms_epoch_preferred_witness :
  ref_parse_send_ms (VDict [("epoch_ms"%str, VInt 1000); ("now"%str, VStr example_now)])
  = Return (Some 1000) /\
  exists z,
    ref_parse_send_ms (VDict [("epoch_ms"%str, VFloat (S754_finite true 3 (-1)))])
    = Return (Some z) /\ z = -1.
Proof.
  split.
  - apply (proj1 (parse_send_ms_epoch_preferred Ref.fromisoformat Ref.local_timestamp
                    [("epoch_ms"%str, VInt 1000); ("now"%str, VStr example_now)]) 1000).
    reflexivity.
  - destruct (proj2 (parse_send_ms_epoch_preferred Ref.fromisoformat Ref.local_timestamp
                       [("epoch_ms"%str, VFloat (S754_finite true 3 (-1)))])
                true 3%positive (-1) eq_refl) as (z & Hz & Hs & Hb).
    exists z. split; [exact Hz |]. cbn in Hb. lia.
Defined.

Lemma parse_send_ms_Z_is_utc_witness :
  ref_parse_send_ms (VDict [("now"%str, VStr ("2025-10-27T17:37:06.388"%str +s "Z"%str))])
  = ref_parse_send_ms
      (VDict [("now"%str, VStr ("2025-10-27T17:37:06.388"%str +s "+00:00"%str))]).
Proof.
  apply (parse_send_ms_Z_is_utc Ref.fromisoformat Ref.local_timestamp
           [("now"%str, VStr ("2025-10-27T17:37:06.388"%str +s "Z"%str))]
           [("now"%str, VStr ("2025-10-27T17:37:06.388"%str +s "+00:00"%str))]
           "2025-10-27T17:37:06.388"); reflexivity.
Defined.

Lemma parse_send_ms_reader_error_witness :
  ref_parse_send_ms (VDict [("now"%str, VStr "yesterday")]) = Return None.
Proof.
  apply (parse_send_ms_reader_error Ref.fromisoformat Ref.local_timestamp
           [("now"%str, VStr "yesterday")] "yesterday" ValueError); reflexivity.
Defined.

Lemma parse_send_ms_no_usable_field_witness :
  ref_parse_send_ms (VDict [("epoch_ms"%str, VStr "1000"); ("now"%str, VInt 5)])
  = Return None.
Proof.
  apply (parse_send_ms_no_usable_field Ref.fromisoformat Ref.local_timestamp
           [("epoch_ms"%str, VStr "1000"); ("now"%str, VInt 5)]); reflexivity.
Defined.

Lemma task_key_truthy_witness : truthy (VStr "SORT") = true.
Proof.
  apply (task_key_truthy (VDict [("task"%str, VStr ""); ("name"%str, VStr "SORT")])).
  reflexivity.
Defined.

Lemma percentile_hwm_permutation_witness :
  percentile_hwm [10; 50; 7] q95 = percentile_hwm [50; 10; 7] q95.
Proof.
  apply percentile_hwm_permutation. apply perm_swap.
Defined.

Lemma percentile_hwm_single_witness :
  percentile_hwm [42] q95 = PyFloat.of_int 42.
Proof.
  apply percentile_hwm_single. repeat split; vm_compute; reflexivity.
Defined.

Lemma percentile_hwm_bad_quantile_witness :
  percentile_hwm [10; 50] PyFloat.nan = Raise ValueError /\
  percentile_hwm [10; 50] q200 = Raise IndexError.
Proof.
  apply percentile_hwm_bad_quantile; [discriminate | reflexivity].
Defined.

Lemma percentile_hwm_zero_quantile_witness :
  exists v, In v [10; 50; 7] /\ (forall y, In y [10; 50; 7] -> v <= y) /\
            percentile_hwm [10; 50; 7] (S754_zero false) = PyFloat.of_int v.
Proof.
  apply percentile_hwm_zero_quantile; [discriminate | reflexivity].
Defined.

Lemma format_hwms_defined_witness :
  exists parts,
    length parts = 3%nat /\
    format_hwms [10; 50; 7] HWM_PCTS = Return (join " | " parts).
Proof.
  apply (format_hwms_defined [10; 50; 7] HWM_PCTS).
  - reflexivity.
  - intros v Hv. cbn in Hv.
    destruct Hv as [<- | [<- | [<- | []]]]; vm_compute; discriminate.
  - repeat constructor; vm_compute; reflexivity.
Defined.

Lemma format_f_of_int_witness :
  PyFloat.format_f 0 (S754_finite true 7036874417766400 (-47)) = "-50"%str.
Proof.
  apply (format_f_of_int (-50)); reflexivity.
Defined.

Lemma record_then_read_witness :
  series_of
    (delays_by_task
       (snd (record (VStr "SORT") 50
               (mk_world [(VStr "SAFETY", [3]); (VStr "SORT", [10])] []))))
    (VStr "SAFETY")
  = [3].
Proof.
  apply (proj2 (proj2 (proj2
           (record_then_read "SORT"%str 50
              (mk_world [(VStr "SAFETY", [3]); (VStr "SORT", [10])] []))))
           "SAFETY"%str).
  discriminate.
Defined.

Lemma iteration_unhashable_key_witness :
  iteration Ref.fromisoformat Ref.local_timestamp
    (json_loads_const (VDict [("task"%str, VList [VInt 1]); ("epoch_ms"%str, VInt 1000)]))
    Ref.utf8_decode_ignore (Ref.dgram "{'task': [1], 'epoch_ms': 1000}" 1010)
    initial_world
  = (Raise TypeError,
     mk_world []
       [LineReceived "12:00:00" "192.168.0.160" 6010
          (Ref.json_text "{'task': [1], 'epoch_ms': 1000}")]).
Proof.
  apply (iteration_unhashable_key
           Ref.fromisoformat Ref.local_timestamp
           (json_loads_const (VDict [("task"%str, VList [VInt 1]); ("epoch_ms"%str, VInt 1000)]))
           Ref.utf8_decode_ignore
           (Ref.dgram "{'task': [1], 'epoch_ms': 1000}" 1010) initial_world
           (VDict [("task"%str, VList [VInt 1]); ("epoch_ms"%str, VInt 1000)])
           (VList [VInt 1]) 1000); reflexivity.
Defined.

Lemma main_loop_sequence_witness :
  ref_main_loop ([Ref.dgram "hello" 5] ++ Ref.dgram "1" 6 ::
                 [Ref.dgram "{'task': 'SORT', 'epoch_ms': 1000}" 1010])
    initial_world
  = (Raise AttributeError,
     mk_world []
       [LineReceived "12:00:00" "192.168.0.160" 6010 "hello";
        LineReceived "12:00:00" "192.168.0.160" 6010 "1"]).
Proof.
  apply (proj2 (main_loop_sequence
                  Ref.fromisoformat Ref.local_timestamp Ref.json_loads Ref.utf8_decode_ignore
                  [Ref.dgram "hello" 5]
                  [Ref.dgram "{'task': 'SORT', 'epoch_ms': 1000}" 1010]
                  initial_world
                  (mk_world [] [LineReceived "12:00:00" "192.168.0.160" 6010 "hello"])
                  eq_refl)).
  reflexivity.
Defined.


Lemma iteration_drops_witness :
  ref_iteration (Ref.dgram "hello" 5) initial_world
  = (Return tt, mk_world [] [LineReceived "12:00:00" "192.168.0.160" 6010 "hello"]).
Proof.
  apply (iteration_drops
           Ref.fromisoformat Ref.local_timestamp Ref.json_loads Ref.utf8_decode_ignore
           (Ref.dgram "hello" 5) initial_world).
  left. reflexivity.
Defined.

Lemma nothing_recorded_report_witness :
  exists w',
    ref_main_loop [Ref.dgram "hello" 5; Ref.dgram "{'task': 'SORT'}" 6] initial_world
    = (Return tt, w') /\
    delays_by_task w' = [] /\
    len (stdout w') = 0 + 2 /\
    handle_sigint Ref.str_lower w'
    = (Return 0, mk_world [] (stdout w' ++ [LineNoSamples])).
Proof.
  apply (nothing_recorded_report
           Ref.fromisoformat Ref.local_timestamp Ref.json_loads Ref.utf8_decode_ignore
           Ref.str_lower
           [Ref.dgram "hello" 5; Ref.dgram "{'task': 'SORT'}" 6] initial_world).
  - reflexivity.
  - constructor; [left; reflexivity |].
    constructor; [| constructor].
    right. exists (VDict [("task"%str, VStr "SORT")]). split; reflexivity.
Defined.

Lemma sorted_by_key_sorts_witness :
  exists items',
    sorted_by_key Ref.str_lower [(VStr "b", [1]); (VStr "A", [2])] = Return items' /\
    Permutation [(VStr "b", [1]); (VStr "A", [2])] items' /\
    Sorted (key_le Ref.str_lower) items'.
Proof.
  apply sorted_by_key_sorts. intros k l Hin. cbn in Hin.
  destruct Hin as [E | [E | []]]; injection E as <- _; reflexivity.
Defined.

Lemma print_summary_non_str_key_witness :
  print_summary Ref.str_lower (mk_world [(VStr "SORT", [10]); (VInt 5, [1])] [])
  = (Raise AttributeError,
     mk_world [(VStr "SORT", [10]); (VInt 5, [1])] [LineReportHeader]).
Proof.
  apply (print_summary_non_str_key Ref.str_lower
           (mk_world [(VStr "SORT", [10]); (VInt 5, [1])] [])).
  exists (VInt 5), [1]. split; [right; left; reflexivity | reflexivity].
Defined.

Lemma print_summary_one_line_per_task_witness :
  exists lines,
    [LineReportHeader;
     LineTask (VStr "SORT") 2 "50" "30.0" "HWM(100%)=50ms | HWM(99%)=50ms | HWM(95%)=50ms"]
    = [] ++ LineReportHeader :: lines /\
    Permutation
      [Some (VStr "SORT")]
      (map (fun l => match l with LineTask t _ _ _ _ => Some t | _ => None end) lines).
Proof.
  apply (print_summary_one_line_per_task Ref.str_lower
           (mk_world [(VStr "SORT", [10; 50])] [])
           (mk_world [(VStr "SORT", [10; 50])]
              [LineReportHeader;
               LineTask (VStr "SORT") 2 "50" "30.0"
                        "HWM(100%)=50ms | HWM(99%)=50ms | HWM(95%)=50ms"])).
  - discriminate.
  - vm_compute. reflexivity.
Defined.
